(** * A shallow embedding of the 6502 core of [nes_emulator/src/cpu.rs]

    Machine integers are [Z]: a [u8] lives in [0, 256), a [u16] in
    [0, 65536), and every [wrapping_add] of the source is written out as
    a reduction modulo 2^8 or 2^16.  Memory, a [[u8; 65536]] array in the
    source, is a total function from addresses to bytes.  A Rust [panic!]
    (and every [unwrap] of an [Err]) is [None] in the option monad. *)

From Stdlib Require Import ZArith Bool List String Lia.
Import ListNotations.
Open Scope Z_scope.

(** ** Constants *)

Definition INIT_PROGRAM_COUNTER_ADDR : Z := 0xfffc.
Definition MEM_ADDR_MAX : Z := 0xffff.
Definition MEM_ADDR_SPACE_SIZE : Z := MEM_ADDR_MAX + 1.
Definition MEM_PRG_ROM_ADDR_START : Z := 0x8000.
Definition DEBUG_ADDR : Z := 0xffff.

Definition u8_wrapping_add (a b : Z) : Z := (a + b) mod 256.
Definition u16_wrapping_add (a b : Z) : Z := (a + b) mod 65536.

(** ** Addressing modes and the opcode table ([OPCODES], [OPCODE_MAP]) *)

Inductive AddressingMode :=
| Immediate | ZeroPage | ZeroPageX | ZeroPageY | Absolute | AbsoluteX
| AbsoluteY | Indirect | IndirectX | IndirectY | NoneAddressing.

Record OpCode := mkOpCode {
  code : Z;
  name : string;
  bytes : Z;
  cycles : Z;
  addressing_mode : AddressingMode }.

Definition OPCODE_BRK : Z := 0x00.
Definition OPCODE_LDA_IMMEDIATE : Z := 0xa9.
Definition OPCODE_LDA_ZEROPAGE : Z := 0xa5.
Definition OPCODE_LDA_ZEROPAGEX : Z := 0xb5.
Definition OPCODE_LDA_ABSOLUTE : Z := 0xad.
Definition OPCODE_LDA_ABSOLUTEX : Z := 0xbd.
Definition OPCODE_LDA_ABSOLUTEY : Z := 0xb9.
Definition OPCODE_LDA_INDIRECTX : Z := 0xa1.
Definition OPCODE_LDA_INDIRECTY : Z := 0xb1.
Definition OPCODE_JMP_ABSOLUTE : Z := 0x4c.
Definition OPCODE_JMP_INDIRECT : Z := 0x6c.
Definition OPCODE_INX : Z := 0xe8.
Definition OPCODE_TAX : Z := 0xaa.

Definition OPCODES : list OpCode := [
  mkOpCode OPCODE_BRK "BRK" 0 7 NoneAddressing;
  mkOpCode OPCODE_JMP_ABSOLUTE "JMP" 3 3 Absolute;
  mkOpCode OPCODE_LDA_IMMEDIATE "LDA" 2 2 Immediate;
  mkOpCode OPCODE_LDA_ZEROPAGE "LDA" 2 2 ZeroPage;
  mkOpCode OPCODE_LDA_ZEROPAGEX "LDA" 2 2 ZeroPageX;
  mkOpCode OPCODE_LDA_ABSOLUTE "LDA" 3 4 Absolute;
  mkOpCode OPCODE_LDA_ABSOLUTEX "LDA" 3 4 AbsoluteX;
  mkOpCode OPCODE_LDA_ABSOLUTEY "LDA" 3 4 AbsoluteY;
  mkOpCode OPCODE_LDA_INDIRECTX "LDA" 2 6 IndirectX;
  mkOpCode OPCODE_LDA_INDIRECTY "LDA" 2 5 IndirectY;
  mkOpCode OPCODE_INX "INX" 1 2 NoneAddressing;
  mkOpCode OPCODE_TAX "TAX" 1 1 NoneAddressing ].

(** [OPCODE_MAP] is built by inserting the entries of [OPCODES] in order
    into a [HashMap]; a later insertion of the same key would win, so a
    lookup searches the reversed list. *)
Definition OPCODE_MAP_get (b : Z) : option OpCode :=
  find (fun op => code op =? b) (rev OPCODES).

(** ** Memory ([Mem]) *)

Definition Mem := Z -> Z.

Definition Mem_new : Mem := fun _ => 0.

Definition Mem_read (m : Mem) (addr : Z) : Z := m addr.

Definition Mem_write (m : Mem) (addr val : Z) : Mem :=
  fun a => if a =? addr then val else m a.

(** Result of a fallible operation that returns [Result<(), SimpleError>]. *)
Inductive Res := Ok | Err.

Definition Mem_read16 (m : Mem) (addr : Z) : option Z :=
  if addr =? MEM_ADDR_MAX then None
  else
    let lo := Mem_read m addr in
    let hi := Mem_read m (u16_wrapping_add addr 1) in
    Some (Z.lor (Z.land (Z.shiftl hi 8) 0xffff) lo).

Definition Mem_write16 (m : Mem) (addr val : Z) : Mem * Res :=
  if addr =? MEM_ADDR_MAX then (m, Err)
  else
    let lo := Z.land val 0xff in
    let m1 := Mem_write m addr lo in
    let hi := Z.land (Z.shiftr val 8) 0xff in
    let m2 := Mem_write m1 (u16_wrapping_add addr 1) hi in
    (m2, Ok).

(** The loop [for i in 0..val.len() { self.write(start_addr + i, val[i]) }]. *)
Fixpoint write_bytes (m : Mem) (addr : Z) (val : list Z) : Mem :=
  match val with
  | [] => m
  | b :: rest => write_bytes (Mem_write m addr b) (addr + 1) rest
  end.

Definition Mem_write_range (m : Mem) (start_addr : Z) (val : list Z) : Mem * Res :=
  if start_addr + Z.of_nat (List.length val) >? MEM_ADDR_SPACE_SIZE then (m, Err)
  else (write_bytes m start_addr val, Ok).

(** ** Status register ([bitflags! Status]) *)

Definition Status_C : Z := 0x01.
Definition Status_Z : Z := 0x02.
Definition Status_I : Z := 0x04.
Definition Status_D : Z := 0x08.
Definition Status_B : Z := 0x10.
Definition Status_V : Z := 0x40.
Definition Status_N : Z := 0x80.
Definition Status_empty : Z := 0.

(** [insert] is [bits |= other]; [remove] is [bits &= !other] on [u8]. *)
Definition Status_insert (s f : Z) : Z := Z.lor s f.
Definition Status_remove (s f : Z) : Z := Z.land s (Z.lxor f 0xff).

(** ** The CPU *)

Record CPU := mkCPU {
  reg_a : Z;
  reg_x : Z;
  reg_y : Z;
  reg_status : Z;
  pc : Z;
  mem : Mem }.

Definition set_reg_a (s : CPU) (v : Z) : CPU :=
  mkCPU v (reg_x s) (reg_y s) (reg_status s) (pc s) (mem s).
Definition set_reg_x (s : CPU) (v : Z) : CPU :=
  mkCPU (reg_a s) v (reg_y s) (reg_status s) (pc s) (mem s).
Definition set_reg_status (s : CPU) (v : Z) : CPU :=
  mkCPU (reg_a s) (reg_x s) (reg_y s) v (pc s) (mem s).
Definition set_pc (s : CPU) (v : Z) : CPU :=
  mkCPU (reg_a s) (reg_x s) (reg_y s) (reg_status s) v (mem s).
Definition set_mem (s : CPU) (m : Mem) : CPU :=
  mkCPU (reg_a s) (reg_x s) (reg_y s) (reg_status s) (pc s) m.

Definition CPU_new : CPU := mkCPU 0 0 0 Status_empty 0 Mem_new.

Definition read_mem (s : CPU) (addr : Z) : Z := Mem_read (mem s) addr.

(** [read_mem16] unwraps [Mem::read16]: an [Err] is a panic. *)
Definition read_mem16 (s : CPU) (addr : Z) : option Z := Mem_read16 (mem s) addr.

Definition load (s : CPU) (program : list Z) : CPU * Res :=
  match Mem_write_range (mem s) MEM_PRG_ROM_ADDR_START program with
  | (m1, Err) => (set_mem s m1, Err)
  | (m1, Ok) =>
      let (m2, r) := Mem_write16 m1 INIT_PROGRAM_COUNTER_ADDR MEM_PRG_ROM_ADDR_START in
      (set_mem s m2, r)
  end.

Definition reset (s : CPU) : option CPU :=
  let s1 := mkCPU 0 0 0 Status_empty (pc s) (mem s) in
  match read_mem16 s1 INIT_PROGRAM_COUNTER_ADDR with
  | Some v => Some (set_pc s1 v)
  | None => None
  end.

Definition set_negative_flag (s : CPU) (register : Z) : CPU :=
  if Z.land register 0x80 =? 0
  then set_reg_status s (Status_remove (reg_status s) Status_N)
  else set_reg_status s (Status_insert (reg_status s) Status_N).

Definition set_zero_flag (s : CPU) (register : Z) : CPU :=
  if register =? 0
  then set_reg_status s (Status_insert (reg_status s) Status_Z)
  else set_reg_status s (Status_remove (reg_status s) Status_Z).

(** ** Instruction handlers ([INSTRUCTION_HANDLERS]) *)

Inductive InstructionHandler := H_brk | H_lda | H_jmp | H_inx | H_tax.

Definition brk (s : CPU) (_addr : Z) : CPU := s.

Definition inx (s : CPU) (_addr : Z) : CPU :=
  let s1 := set_reg_x s (u8_wrapping_add (reg_x s) 1) in
  let s2 := set_negative_flag s1 (reg_x s1) in
  set_zero_flag s2 (reg_x s2).

Definition jmp (s : CPU) (addr : Z) : CPU := set_pc s addr.

Definition lda (s : CPU) (addr : Z) : CPU :=
  let s1 := set_reg_a s (read_mem s addr) in
  let s2 := set_negative_flag s1 (reg_a s1) in
  set_zero_flag s2 (reg_a s2).

Definition tax (s : CPU) (_addr : Z) : CPU :=
  let s1 := set_reg_x s (reg_a s) in
  let s2 := set_negative_flag s1 (reg_x s1) in
  set_zero_flag s2 (reg_x s2).

Definition run_handler (h : InstructionHandler) : CPU -> Z -> CPU :=
  match h with
  | H_brk => brk | H_lda => lda | H_jmp => jmp | H_inx => inx | H_tax => tax
  end.

Definition INSTRUCTION_HANDLERS : list (Z * InstructionHandler) := [
  (OPCODE_BRK, H_brk);
  (OPCODE_LDA_IMMEDIATE, H_lda); (OPCODE_LDA_ZEROPAGE, H_lda);
  (OPCODE_LDA_ZEROPAGEX, H_lda); (OPCODE_LDA_ABSOLUTE, H_lda);
  (OPCODE_LDA_ABSOLUTEX, H_lda); (OPCODE_LDA_ABSOLUTEY, H_lda);
  (OPCODE_LDA_INDIRECTX, H_lda); (OPCODE_LDA_INDIRECTY, H_lda);
  (OPCODE_JMP_ABSOLUTE, H_jmp);
  (OPCODE_INX, H_inx);
  (OPCODE_TAX, H_tax) ].

Definition INSTRUCTION_HANDLERS_get (b : Z) : option InstructionHandler :=
  match find (fun e => fst e =? b) (rev INSTRUCTION_HANDLERS) with
  | Some (_, h) => Some h
  | None => None
  end.

(** ** Address resolution, dispatch and the fetch/execute loop *)

Definition read_operand_address (s : CPU) (addr : Z) (mode : AddressingMode)
  : option Z :=
  match mode with
  | Immediate => Some addr
  | ZeroPage => Some (read_mem s addr)
  | ZeroPageX => Some (u8_wrapping_add (read_mem s addr) (reg_x s))
  | ZeroPageY => Some (u8_wrapping_add (read_mem s addr) (reg_y s))
  | Absolute => read_mem16 s addr
  | AbsoluteX =>
      match read_mem16 s addr with
      | Some v => Some (u16_wrapping_add v (reg_x s))
      | None => None
      end
  | AbsoluteY =>
      match read_mem16 s addr with
      | Some v => Some (u16_wrapping_add v (reg_y s))
      | None => None
      end
  | Indirect =>
      match read_mem16 s addr with
      | Some addr_of_addr => read_mem16 s addr_of_addr
      | None => None
      end
  | IndirectX => read_mem16 s (u8_wrapping_add (read_mem s addr) (reg_x s))
  | IndirectY =>
      match read_mem16 s addr with
      | Some addr' =>
          match read_mem16 s addr' with
          | Some v => Some (u16_wrapping_add v (reg_y s))
          | None => None
          end
      | None => None
      end
  | NoneAddressing => Some DEBUG_ADDR
  end.

Definition dispatch_instruction (s : CPU) (opcode : OpCode) : option (bool * CPU) :=
  let curr_pc := pc s in
  match INSTRUCTION_HANDLERS_get (code opcode) with
  | None => None
  | Some handler =>
      match read_operand_address s (u16_wrapping_add (pc s) 1)
              (addressing_mode opcode) with
      | None => None
      | Some addr =>
          let s1 := run_handler handler s addr in
          let s2 := if curr_pc =? pc s1
                    then set_pc s1 (u16_wrapping_add (pc s1) (bytes opcode))
                    else s1 in
          Some (negb (code opcode =? OPCODE_BRK), s2)
      end
  end.

(** [step] returns [None] on a panic, otherwise whether to continue. *)
Definition step (s : CPU) : option (bool * CPU) :=
  let val := read_mem s (pc s) in
  match OPCODE_MAP_get val with
  | Some opcode => dispatch_instruction s opcode
  | None => None
  end.

(** The [loop] of [run] is unbounded; it is run here on a fuel budget. *)
Inductive Exec :=
| Returned (s : CPU) (r : Res)
| Panicked
| OutOfFuel (s : CPU).

Fixpoint step_loop (fuel : nat) (s : CPU) : Exec :=
  match fuel with
  | O => OutOfFuel s
  | S n =>
      match step s with
      | None => Panicked
      | Some (true, s') => step_loop n s'
      | Some (false, s') => Returned s' Ok
      end
  end.

Definition run (fuel : nat) (s : CPU) : Exec :=
  step_loop fuel (set_pc s MEM_PRG_ROM_ADDR_START).

Definition interpret (fuel : nat) (s : CPU) (program : list Z) : Exec :=
  match load s program with
  | (s1, Err) => Returned s1 Err
  | (s1, Ok) =>
      match reset s1 with
      | None => Panicked
      | Some s2 => run fuel s2
      end
  end.

(** ** Tests of the source, evaluated on the model *)

Definition test_result (fuel : nat) (program : list Z) : option (Z * Z * Z) :=
  match interpret fuel CPU_new program with
  | Returned s Ok => Some (reg_a s, reg_x s, reg_status s)
  | _ => None
  end.

Example test_lda_immediate_load_data :
  test_result 10 [0xa9; 0x0f; 0x00] = Some (0x0f, 0, Status_empty).
Proof. vm_compute. reflexivity. Qed.

Example test_lda_immediate_negative_flag :
  test_result 10 [0xa9; 0x8f; 0x00] = Some (0x8f, 0, Status_N).
Proof. vm_compute. reflexivity. Qed.

Example test_lda_immediate_zero_flag :
  test_result 10 [0xa9; 0x00; 0x00] = Some (0, 0, Status_Z).
Proof. vm_compute. reflexivity. Qed.

Example test_tax_load_data :
  test_result 10 [0xa9; 0x7f; 0xaa; 0x00] = Some (0x7f, 0x7f, Status_empty).
Proof. vm_compute. reflexivity. Qed.

Example test_inx :
  test_result 10 [0xe8; 0xe8; 0x00] = Some (0, 2, Status_empty).
Proof. vm_compute. reflexivity. Qed.

Example test_inx_zero_flag :
  test_result 300 (repeat 0xe8 256 ++ [0x00]) = Some (0, 0, Status_Z).
Proof. vm_compute. reflexivity. Qed.

(** ** Helpers *)

(** A memory image given as a list of (address, byte) writes over fresh memory. *)
Definition mem_of (writes : list (Z * Z)) : Mem :=
  fold_left (fun m w => Mem_write m (fst w) (snd w)) writes Mem_new.

(** The number of operand bytes that follow the opcode in each mode. *)
Definition operand_bytes (mode : AddressingMode) : Z :=
  match mode with
  | NoneAddressing => 0
  | Immediate | ZeroPage | ZeroPageX | ZeroPageY | IndirectX | IndirectY => 1
  | Absolute | AbsoluteX | AbsoluteY | Indirect => 2
  end.

Lemma testbit_u16_high (v i : Z) :
  0 <= v < 65536 -> 16 <= i -> Z.testbit v i = false.
Proof.
  intros Hv Hi.
  rewrite <- (Z.mod_small v (2 ^ 16)) by (simpl; lia).
  apply Z.mod_pow2_bits_high. lia.
Qed.

Lemma u16_bytes_recombine (v : Z) :
  0 <= v < 65536 ->
  Z.lor (Z.land (Z.shiftl (Z.land (Z.shiftr v 8) 0xff) 8) 0xffff) (Z.land v 0xff) = v.
Proof.
  intros Hv. apply Z.bits_inj'. intros i Hi.
  change 0xff with (Z.ones 8). change 0xffff with (Z.ones 16).
  rewrite Z.lor_spec, !Z.land_spec, !Z.testbit_ones_nonneg by lia.
  destruct (Z.ltb_spec i 8) as [Hlt | Hge].
  - rewrite Z.shiftl_spec_low by lia. rewrite !andb_true_r. reflexivity.
  - rewrite Z.shiftl_spec by lia.
    rewrite Z.land_spec, Z.shiftr_spec, Z.testbit_ones_nonneg by lia.
    replace (i - 8 + 8) with i by lia.
    destruct (Z.ltb_spec (i - 8) 8); destruct (Z.ltb_spec i 16); try lia;
      rewrite ?andb_true_r, ?andb_false_r, ?orb_false_r; simpl.
    + reflexivity.
    + symmetry. apply testbit_u16_high; lia.
Qed.

Lemma OPCODE_MAP_get_in (b : Z) (op : OpCode) :
  OPCODE_MAP_get b = Some op -> In op OPCODES /\ code op = b.
Proof.
  unfold OPCODE_MAP_get. intros H.
  apply find_some in H as [Hin Hb].
  split; [apply in_rev; exact Hin | apply Z.eqb_eq; exact Hb].
Qed.

(** ** C7: 16-bit memory access *)

(** Claim C7: for addr in [0, 65534] and a 16-bit v, [write16(addr, v)]
    succeeds, stores the low byte at addr and the high byte at addr+1, and
    [read16(addr)] then returns v; at address 65535 both [read16] and
    [write16] fail and [write16] leaves memory unchanged. *)
Theorem write16_read16_roundtrip (m : Mem) (addr v : Z) :
  0 <= addr <= 65534 -> 0 <= v < 65536 ->
  (exists m', Mem_write16 m addr v = (m', Ok) /\
     Mem_read16 m' addr = Some v /\
     Mem_read m' addr = Z.land v 0xff /\
     Mem_read m' (addr + 1) = Z.shiftr v 8) /\
  Mem_write16 m 65535 v = (m, Err) /\ Mem_read16 m 65535 = None.
Proof.
  intros Ha Hv. split; [| split; reflexivity].
  unfold Mem_write16, Mem_read16, MEM_ADDR_MAX.
  assert (Hne : (addr =? 0xffff) = false) by (apply Z.eqb_neq; lia).
  assert (Hw : u16_wrapping_add addr 1 = addr + 1)
    by (unfold u16_wrapping_add; apply Z.mod_small; lia).
  rewrite Hne, Hw. eexists. split; [reflexivity |].
  unfold Mem_read, Mem_write.
  rewrite Z.eqb_refl.
  assert (Hn1 : (addr =? addr + 1) = false) by (apply Z.eqb_neq; lia).
  rewrite Hn1, Z.eqb_refl.
  assert (Hhi : Z.land (Z.shiftr v 8) 0xff = Z.shiftr v 8).
  { change 0xff with (Z.ones 8). rewrite Z.land_ones by lia.
    apply Z.mod_small. split; [apply Z.shiftr_nonneg; lia |].
    rewrite Z.shiftr_div_pow2 by lia. change (2 ^ 8) with 256.
    apply Z.div_lt_upper_bound; lia. }
  split; [| split; [reflexivity | exact Hhi]].
  f_equal. apply u16_bytes_recombine. exact Hv.
Qed.

Lemma write16_read16_roundtrip_witness :
  (0 <= 0x10 <= 65534 /\ 0 <= 0x1234 < 65536) /\
  ((exists m', Mem_write16 Mem_new 0x10 0x1234 = (m', Ok) /\
     Mem_read16 m' 0x10 = Some 0x1234 /\
     Mem_read m' 0x10 = Z.land 0x1234 0xff /\
     Mem_read m' (0x10 + 1) = Z.shiftr 0x1234 8) /\
   Mem_write16 Mem_new 65535 0x1234 = (Mem_new, Err) /\
   Mem_read16 Mem_new 65535 = None).
Proof.
  split; [lia |].
  apply (write16_read16_roundtrip Mem_new 0x10 0x1234); lia.
Defined.

(** ** C9: [load] sets the reset vector *)

(** Claim C9: for every program of at most 32768 bytes, [load] succeeds
    and afterwards memory holds 0x00 at 0xFFFC and 0x80 at 0xFFFD (the
    reset vector points at 0x8000), whatever the program's bytes at the
    offsets 0x7FFC and 0x7FFD were. *)
Theorem load_sets_reset_vector (s : CPU) (program : list Z) :
  Z.of_nat (List.length program) <= 32768 ->
  exists s', load s program = (s', Ok) /\
    read_mem s' 0xfffc = 0x00 /\ read_mem s' 0xfffd = 0x80.
Proof.
  intros Hlen. unfold load, Mem_write_range.
  assert (Hfit : (MEM_PRG_ROM_ADDR_START + Z.of_nat (List.length program)
                  >? MEM_ADDR_SPACE_SIZE) = false).
  { unfold MEM_PRG_ROM_ADDR_START, MEM_ADDR_SPACE_SIZE, MEM_ADDR_MAX.
    rewrite Z.gtb_ltb. apply Z.ltb_ge. lia. }
  rewrite Hfit. eexists. split; [reflexivity |].
  split; reflexivity.
Qed.

Lemma load_sets_reset_vector_witness :
  Z.of_nat (List.length [0xa9; 0x0f; 0x00]) <= 32768 /\
  exists s', load CPU_new [0xa9; 0x0f; 0x00] = (s', Ok) /\
    read_mem s' 0xfffc = 0x00 /\ read_mem s' 0xfffd = 0x80.
Proof.
  split; [simpl; lia |].
  apply load_sets_reset_vector. simpl. lia.
Defined.

(** ** C10: [interpret] on the empty program *)

(** Claim C10: [interpret] of the empty program on a fresh CPU returns
    success after a single step (fresh memory is zero and 0x00 is BRK);
    afterwards A, X and Y are 0, every flag is clear and PC is 0x8000,
    still on the BRK byte, since BRK's catalog length is 0. *)
Theorem interpret_empty_program :
  exists s', interpret 1 CPU_new [] = Returned s' Ok /\
    reg_a s' = 0 /\ reg_x s' = 0 /\ reg_y s' = 0 /\
    reg_status s' = Status_empty /\ pc s' = 0x8000.
Proof.
  eexists. split; [reflexivity |].
  repeat split.
Qed.

(** ** C5: instruction lengths in the catalog *)

(** Claim C5 (as stated: every catalog entry has length at least 1) is
    false at BRK. *)
Lemma catalog_brk_length_zero :
  ~ (forall op, In op OPCODES -> bytes op >= 1).
Proof.
  intros H.
  specialize (H (mkOpCode OPCODE_BRK "BRK" 0 7 NoneAddressing)).
  assert (0 >= 1) by (apply H; left; reflexivity). lia.
Qed.

(** Claim C5, amended: every opcode found in the catalog other than BRK
    has length 1 plus its addressing mode's operand bytes (the total
    instruction length including the opcode byte, at least 1); BRK's
    length field is 0. *)
Theorem catalog_lengths (b : Z) (op : OpCode) :
  OPCODE_MAP_get b = Some op ->
  (code op = OPCODE_BRK /\ bytes op = 0) \/
  (code op <> OPCODE_BRK /\ bytes op = 1 + operand_bytes (addressing_mode op) /\
   bytes op >= 1).
Proof.
  intros H. apply OPCODE_MAP_get_in in H as [Hin _].
  unfold OPCODES in Hin.
  repeat (destruct Hin as [<- | Hin];
          [unfold OPCODE_BRK; simpl;
           first [left; split; reflexivity | right; repeat split; discriminate] |]).
  destruct Hin.
Qed.

Lemma catalog_lengths_witness :
  OPCODE_MAP_get OPCODE_LDA_INDIRECTY <> None /\
  exists op, OPCODE_MAP_get OPCODE_LDA_INDIRECTY = Some op /\
    ((code op = OPCODE_BRK /\ bytes op = 0) \/
     (code op <> OPCODE_BRK /\ bytes op = 1 + operand_bytes (addressing_mode op) /\
      bytes op >= 1)).
Proof.
  split; [discriminate |].
  exists (mkOpCode OPCODE_LDA_INDIRECTY "LDA" 2 5 IndirectY).
  split; [reflexivity |].
  apply (catalog_lengths OPCODE_LDA_INDIRECTY). reflexivity.
Defined.

(** ** C1: indirect-Y addressing *)

(** LDA (zp),Y at 0x8000 with operand byte 0x10 followed by the byte 0x01;
    the zero-page pointer at 0x10/0x11 is 0x1234 and Y is 0. *)
Definition cpu_indirect_y : CPU :=
  mkCPU 0 0 0 Status_empty 0x8000
    (mem_of [(0x8000, 0xb1); (0x8001, 0x10); (0x8002, 0x01);
             (0x0010, 0x34); (0x0011, 0x12); (0x1234, 0x77)]).

(** Claim C1 on the code: the indirect-Y resolver reads a 16-bit pointer
    at the operand address itself (two operand bytes, 0x0110 here) instead
    of a zero-page pointer at the single operand byte (0x10, which holds
    0x1234); the effective address is 0x0000, not 0x1234, and LDA (zp),Y
    loads 0x00 rather than 0x77. *)
Theorem indirect_y_reads_two_operand_bytes :
  Mem_read16 (mem cpu_indirect_y)
    (Z.land (read_mem cpu_indirect_y 0x8001) 0xff) = Some 0x1234 /\
  read_operand_address cpu_indirect_y 0x8001 IndirectY = Some 0x0000 /\
  exists s', step cpu_indirect_y = Some (true, s') /\
    reg_a s' = 0x00 /\ read_mem cpu_indirect_y 0x1234 = 0x77.
Proof.
  split; [reflexivity |]. split; [reflexivity |].
  eexists. split; [reflexivity |]. split; reflexivity.
Qed.

(** ** C2: jump-absolute *)

(** The PC-advance suppression works whenever the jump target differs
    from the address of the JMP instruction. *)
Lemma jmp_step_other_target (s : CPU) (target : Z) :
  read_mem s (pc s) = OPCODE_JMP_ABSOLUTE ->
  read_mem16 s (u16_wrapping_add (pc s) 1) = Some target ->
  target <> pc s ->
  step s = Some (true, set_pc s target).
Proof.
  intros Hop Hrd Hne. unfold step. rewrite Hop.
  unfold dispatch_instruction. simpl. rewrite Hrd. simpl.
  destruct (Z.eqb_spec (pc s) target); [congruence | reflexivity].
Qed.

(** JMP $8000 placed at 0x8000: a jump to itself. *)
Definition cpu_jmp_self : CPU :=
  mkCPU 0 0 0 Status_empty 0x8000
    (mem_of [(0x8000, 0x4c); (0x8001, 0x00); (0x8002, 0x80)]).

(** Claim C2 on the code: with the jump target equal to the JMP's own
    address, [dispatch_instruction] sees an unchanged PC and advances it
    by 3, so PC becomes 0x8003 instead of the target 0x8000. *)
Theorem jmp_self_advances_pc :
  read_operand_address cpu_jmp_self 0x8001 Absolute = Some 0x8000 /\
  exists s', step cpu_jmp_self = Some (true, s') /\ pc s' = 0x8003.
Proof.
  split; [reflexivity |].
  eexists. split; reflexivity.
Qed.

(** ** C3: [run] *)

(** The spec's reading of [run]: from the given state, call [step]
    repeatedly until one signals halt (a relation, following the spec's
    words, to compare with [run]). *)
Inductive steps_until_halt : CPU -> CPU -> Prop :=
| suh_halt (s s' : CPU) :
    step s = Some (false, s') -> steps_until_halt s s'
| suh_continue (s s1 s' : CPU) :
    step s = Some (true, s1) -> steps_until_halt s1 s' -> steps_until_halt s s'.

Lemma step_loop_halt_iff (n : nat) (s s' : CPU) :
  step_loop n s = Returned s' Ok -> steps_until_halt s s'.
Proof.
  revert s. induction n as [| n IH]; intros s H; simpl in H; [discriminate |].
  destruct (step s) as [[[|] s1] |] eqn:E; try discriminate.
  - apply suh_continue with s1; [exact E | apply IH; exact H].
  - injection H as <-. apply suh_halt. exact E.
Qed.

Lemma steps_until_halt_step_loop (s s' : CPU) :
  steps_until_halt s s' -> exists n, step_loop n s = Returned s' Ok.
Proof.
  induction 1 as [s s' E | s s1 s' E _ [n IH]].
  - exists 1%nat. simpl. rewrite E. reflexivity.
  - exists (S n). simpl. rewrite E. exact IH.
Qed.

(** Claim C3 (as stated: [run] is [step] iterated from the given state,
    with no other change) is false on a fresh CPU: [run] first moves PC to
    0x8000, halts there on BRK with PC 0x8000, while iterating [step] from
    the fresh state halts on the BRK at address 0 with PC 0. *)
Lemma run_resets_pc_first :
  exists s', run 1 CPU_new = Returned s' Ok /\ pc s' = 0x8000 /\
    ~ steps_until_halt CPU_new s'.
Proof.
  eexists. split; [reflexivity |]. split; [reflexivity |].
  intros H. inversion H as [s0 s1 E | s0 s1 s2 E _]; subst;
    vm_compute in E; [| discriminate].
  injection E as E. subst. discriminate.
Qed.

(** Claim C3, amended: [run] first sets PC to 0x8000 (the start of program
    ROM, whatever PC and the reset vector hold) and then calls [step]
    repeatedly until one signals halt; it makes no other state change.  It
    halts in state s' for some budget of steps exactly when iterating
    [step] from the state with PC = 0x8000 halts in s'. *)
Theorem run_is_iterated_step_from_rom_start (s s' : CPU) :
  (exists n, run n s = Returned s' Ok) <->
  steps_until_halt (set_pc s MEM_PRG_ROM_ADDR_START) s'.
Proof.
  unfold run. split.
  - intros [n H]. exact (step_loop_halt_iff n _ _ H).
  - apply steps_until_halt_step_loop.
Qed.

(** ** C4: when [step] fails *)

(** A fault state: LDA absolute at 0xFFFE, whose two operand bytes would
    be read at 0xFFFF. *)
Definition cpu_lda_abs_at_fffe : CPU :=
  mkCPU 0 0 0 Status_empty 0xfffe (mem_of [(0xfffe, 0xad)]).

(** Claim C4 (as stated: [step] never fails on a catalog opcode) is false:
    LDA absolute at 0xFFFE is in the catalog, yet resolving its operand
    reads 16 bits at 0xFFFF and the [unwrap] in [read_mem16] panics. *)
Lemma step_panics_on_read16_at_ffff :
  OPCODE_MAP_get (read_mem cpu_lda_abs_at_fffe (pc cpu_lda_abs_at_fffe)) <> None /\
  step cpu_lda_abs_at_fffe = None.
Proof. split; [discriminate | reflexivity]. Qed.

Lemma read_mem16_none_iff (s : CPU) (addr : Z) :
  read_mem16 s addr = None <-> addr = 0xffff.
Proof.
  unfold read_mem16, Mem_read16, MEM_ADDR_MAX.
  destruct (Z.eqb_spec addr 0xffff); split; congruence.
Qed.

Lemma u8_wrapping_add_ne_ffff (a b : Z) : u8_wrapping_add a b <> 0xffff.
Proof.
  unfold u8_wrapping_add. pose proof (Z.mod_pos_bound (a + b) 256). lia.
Qed.

Lemma catalog_has_handlers (op : OpCode) :
  In op OPCODES ->
  addressing_mode op <> Indirect /\
  exists h, INSTRUCTION_HANDLERS_get (code op) = Some h.
Proof.
  unfold OPCODES. intros Hin.
  repeat (destruct Hin as [<- | Hin];
          [split; [discriminate | eexists; reflexivity] |]).
  destruct Hin.
Qed.

Lemma read_operand_address_none_iff (s : CPU) (a : Z) (mode : AddressingMode) :
  mode <> Indirect ->
  read_operand_address s a mode = None <->
  ((mode = Absolute \/ mode = AbsoluteX \/ mode = AbsoluteY \/ mode = IndirectY) /\
   a = 0xffff) \/
  (mode = IndirectY /\ read_mem16 s a = Some 0xffff).
Proof.
  intros Hind. destruct mode; simpl; try congruence.
  - split; [discriminate | intros [[H _] | [H _]]; intuition discriminate].
  - split; [discriminate | intros [[H _] | [H _]]; intuition discriminate].
  - split; [discriminate | intros [[H _] | [H _]]; intuition discriminate].
  - split; [discriminate | intros [[H _] | [H _]]; intuition discriminate].
  - rewrite read_mem16_none_iff. intuition discriminate.
  - destruct (read_mem16 s a) eqn:E.
    + assert (a <> 0xffff) by (intros ->; discriminate).
      split; [discriminate | intros [[_ H'] | [H' _]]; [contradiction | discriminate]].
    + apply read_mem16_none_iff in E. intuition.
  - destruct (read_mem16 s a) eqn:E.
    + assert (a <> 0xffff) by (intros ->; discriminate).
      split; [discriminate | intros [[_ H'] | [H' _]]; [contradiction | discriminate]].
    + apply read_mem16_none_iff in E. intuition.
  - rewrite read_mem16_none_iff.
    pose proof (u8_wrapping_add_ne_ffff (read_mem s a) (reg_x s)).
    split; [intros H'; contradiction | intros [[[H' | [H' | [H' | H']]] _] | [H' _]]; discriminate].
  - destruct (read_mem16 s a) as [p |] eqn:E.
    + assert (a <> 0xffff) by (intros ->; discriminate).
      destruct (read_mem16 s p) eqn:E2.
      * assert (p <> 0xffff) by (intros ->; discriminate).
        split; [discriminate |].
        intros [[_ H'] | [_ H']]; [contradiction | injection H' as ->; contradiction].
      * apply read_mem16_none_iff in E2. subst p. intuition.
    + apply read_mem16_none_iff in E. intuition.
  - split; [discriminate | intros [[H _] | [H _]]; intuition discriminate].
Qed.

(** Claim C4, amended: for an instruction that does not use indirect-Y
    addressing (whose resolution is the defect of claim C1), [step] fails
    (panics) exactly when the opcode byte at PC is absent from the catalog,
    or the instruction's addressing mode is absolute, absolute-X or
    absolute-Y and PC+1 (mod 2^16) is 0xFFFF, where [read16] rejects the
    address and [read_mem16] unwraps the error; in every other case [step]
    completes. *)
Theorem step_fails_iff (s : CPU) :
  (forall op, OPCODE_MAP_get (read_mem s (pc s)) = Some op ->
     addressing_mode op <> IndirectY) ->
  step s = None <->
  OPCODE_MAP_get (read_mem s (pc s)) = None \/
  exists op, OPCODE_MAP_get (read_mem s (pc s)) = Some op /\
    (addressing_mode op = Absolute \/ addressing_mode op = AbsoluteX \/
     addressing_mode op = AbsoluteY) /\
    u16_wrapping_add (pc s) 1 = 0xffff.
Proof.
  intros Hnoy. unfold step.
  destruct (OPCODE_MAP_get (read_mem s (pc s))) as [op |] eqn:Hget.
  2: { split; [left; reflexivity | reflexivity]. }
  specialize (Hnoy op eq_refl).
  apply OPCODE_MAP_get_in in Hget as [Hin _].
  apply catalog_has_handlers in Hin as [Hind [h Hh]].
  assert (Hd : dispatch_instruction s op = None <->
               read_operand_address s (u16_wrapping_add (pc s) 1)
                 (addressing_mode op) = None).
  { unfold dispatch_instruction. rewrite Hh.
    destruct (read_operand_address _ _ _); split; congruence. }
  rewrite Hd, (read_operand_address_none_iff _ _ _ Hind).
  split.
  - intros [[Hm Ha] | [Hm _]]; [| contradiction].
    right. exists op. split; [reflexivity |]. split; [| exact Ha].
    destruct Hm as [H | [H | [H | H]]]; [left | right; left | right; right | contradiction];
      exact H.
  - intros [H | [op' [H [Hm Ha]]]]; [discriminate |].
    injection H as <-. left. split; [| exact Ha]. intuition.
Qed.

Lemma step_fails_iff_witness :
  (forall op, OPCODE_MAP_get (read_mem cpu_lda_abs_at_fffe (pc cpu_lda_abs_at_fffe)) = Some op ->
     addressing_mode op <> IndirectY) /\
  (step cpu_lda_abs_at_fffe = None <->
   OPCODE_MAP_get (read_mem cpu_lda_abs_at_fffe (pc cpu_lda_abs_at_fffe)) = None \/
   exists op, OPCODE_MAP_get (read_mem cpu_lda_abs_at_fffe (pc cpu_lda_abs_at_fffe)) = Some op /\
     (addressing_mode op = Absolute \/ addressing_mode op = AbsoluteX \/
      addressing_mode op = AbsoluteY) /\
     u16_wrapping_add (pc cpu_lda_abs_at_fffe) 1 = 0xffff).
Proof.
  assert (H : forall op, OPCODE_MAP_get (read_mem cpu_lda_abs_at_fffe (pc cpu_lda_abs_at_fffe)) = Some op ->
     addressing_mode op <> IndirectY).
  { intros op E. vm_compute in E. injection E as <-. discriminate. }
  split; [exact H | apply step_fails_iff; exact H].
Defined.

(** ** Flag bookkeeping *)

Lemma land_0x80_zero_iff (v : Z) :
  Z.land v 0x80 = 0 <-> Z.testbit v 7 = false.
Proof.
  split.
  - intros H. pose proof (Z.land_spec v 0x80 7) as E.
    rewrite H in E. change (Z.testbit 0x80 7) with true in E.
    rewrite andb_true_r in E. rewrite <- E. reflexivity.
  - intros H. apply Z.bits_inj'. intros i Hi.
    rewrite Z.land_spec, Z.bits_0.
    destruct (Z.eq_dec i 7) as [-> | Hne]; [rewrite H; reflexivity |].
    change 0x80 with (2 ^ 7). rewrite Z.pow2_bits_false by lia.
    apply andb_false_r.
Qed.

Lemma set_negative_flag_regs (s : CPU) (r : Z) :
  let s' := set_negative_flag s r in
  reg_a s' = reg_a s /\ reg_x s' = reg_x s /\ reg_y s' = reg_y s /\
  pc s' = pc s /\ mem s' = mem s.
Proof. unfold set_negative_flag. destruct (_ =? 0); repeat split. Qed.

Lemma set_zero_flag_regs (s : CPU) (r : Z) :
  let s' := set_zero_flag s r in
  reg_a s' = reg_a s /\ reg_x s' = reg_x s /\ reg_y s' = reg_y s /\
  pc s' = pc s /\ mem s' = mem s.
Proof. unfold set_zero_flag. destruct (_ =? 0); repeat split. Qed.

(** The flag bits other than N (7) follow [set_negative_flag] unchanged,
    and bit 7 becomes bit 7 of the register. *)
Lemma set_negative_flag_bits (s : CPU) (r i : Z) :
  0 <= i < 8 ->
  Z.testbit (reg_status (set_negative_flag s r)) i =
  if i =? 7 then Z.testbit r 7 else Z.testbit (reg_status s) i.
Proof.
  intros Hi. unfold set_negative_flag, Status_remove, Status_insert, Status_N.
  destruct (Z.eqb_spec (Z.land r 0x80) 0) as [E | E]; simpl reg_status.
  - apply land_0x80_zero_iff in E.
    rewrite Z.land_spec.
    assert (i = 0 \/ i = 1 \/ i = 2 \/ i = 3 \/ i = 4 \/ i = 5 \/ i = 6 \/ i = 7)
      as Hc by lia.
    repeat destruct Hc as [-> | Hc]; subst; rewrite ?E; simpl;
      rewrite ?andb_true_r, ?andb_false_r; reflexivity.
  - assert (E' : Z.testbit r 7 = true).
    { destruct (Z.testbit r 7) eqn:T; [reflexivity |].
      apply land_0x80_zero_iff in T. contradiction. }
    rewrite Z.lor_spec.
    assert (i = 0 \/ i = 1 \/ i = 2 \/ i = 3 \/ i = 4 \/ i = 5 \/ i = 6 \/ i = 7)
      as Hc by lia.
    repeat destruct Hc as [-> | Hc]; subst; rewrite ?E'; simpl;
      rewrite ?orb_true_r, ?orb_false_r; reflexivity.
Qed.

(** The flag bits other than Z (1) follow [set_zero_flag] unchanged, and
    bit 1 records whether the register is zero. *)
Lemma set_zero_flag_bits (s : CPU) (r i : Z) :
  0 <= i < 8 ->
  Z.testbit (reg_status (set_zero_flag s r)) i =
  if i =? 1 then (r =? 0) else Z.testbit (reg_status s) i.
Proof.
  intros Hi. unfold set_zero_flag, Status_remove, Status_insert, Status_Z.
  assert (i = 0 \/ i = 1 \/ i = 2 \/ i = 3 \/ i = 4 \/ i = 5 \/ i = 6 \/ i = 7)
    as Hc by lia.
  destruct (r =? 0); simpl reg_status;
    [rewrite Z.lor_spec | rewrite Z.land_spec];
    repeat destruct Hc as [-> | Hc]; subst; simpl;
    rewrite ?orb_true_r, ?orb_false_r, ?andb_true_r, ?andb_false_r; reflexivity.
Qed.

Lemma lda_effect (s : CPU) (a : Z) :
  let s' := lda s a in
  reg_a s' = read_mem s a /\ reg_x s' = reg_x s /\ reg_y s' = reg_y s /\
  pc s' = pc s /\ mem s' = mem s /\
  forall i, 0 <= i < 8 ->
    Z.testbit (reg_status s') i =
    if i =? 1 then (read_mem s a =? 0)
    else if i =? 7 then Z.testbit (read_mem s a) 7
    else Z.testbit (reg_status s) i.
Proof.
  unfold lda.
  set (s1 := set_reg_a s (read_mem s a)).
  set (s2 := set_negative_flag s1 (reg_a s1)).
  destruct (set_negative_flag_regs s1 (reg_a s1)) as (Na & Nx & Ny & Npc & Nm).
  destruct (set_zero_flag_regs s2 (reg_a s2)) as (Za & Zx & Zy & Zpc & Zm).
  fold s2 in Na, Nx, Ny, Npc, Nm.
  rewrite Za, Zx, Zy, Zpc, Zm, Na, Nx, Ny, Npc, Nm.
  repeat split.
  intros i Hi.
  rewrite set_zero_flag_bits by exact Hi.
  destruct (Z.eqb_spec i 1) as [-> | H1]; [reflexivity |].
  unfold s2. rewrite set_negative_flag_bits by exact Hi. reflexivity.
Qed.

(** ** C8: load-accumulator *)

(** Claim C8: when [step] executes an LDA opcode whose effective address
    a resolves, A becomes the byte at a, the Z flag (bit 1) is set iff that
    byte is 0, the N flag (bit 7) is bit 7 of that byte, and X, Y, memory
    and the flags C, I, D, B and V (bits 0, 2, 3, 4, 6) are unchanged. *)
Theorem lda_step (s : CPU) (op : OpCode) (a : Z) :
  OPCODE_MAP_get (read_mem s (pc s)) = Some op ->
  name op = "LDA"%string ->
  read_operand_address s (u16_wrapping_add (pc s) 1) (addressing_mode op) = Some a ->
  exists s', step s = Some (true, s') /\
    reg_a s' = read_mem s a /\ reg_x s' = reg_x s /\ reg_y s' = reg_y s /\
    mem s' = mem s /\
    Z.testbit (reg_status s') 1 = (read_mem s a =? 0) /\
    Z.testbit (reg_status s') 7 = Z.testbit (read_mem s a) 7 /\
    (forall i, In i [0; 2; 3; 4; 6] ->
       Z.testbit (reg_status s') i = Z.testbit (reg_status s) i).
Proof.
  intros Hget Hname Hres.
  assert (Hh : INSTRUCTION_HANDLERS_get (code op) = Some H_lda /\
               (code op =? OPCODE_BRK) = false).
  { apply OPCODE_MAP_get_in in Hget as [Hin _].
    unfold OPCODES in Hin.
    repeat (destruct Hin as [<- | Hin];
            [try discriminate Hname; split; reflexivity |]).
    destruct Hin. }
  destruct Hh as [Hh Hbrk].
  assert (Hdisp : dispatch_instruction s op =
                  Some (true, set_pc (lda s a) (u16_wrapping_add (pc (lda s a))
                                                  (bytes op)))).
  { unfold dispatch_instruction. rewrite Hh, Hres, Hbrk. simpl run_handler.
    destruct (lda_effect s a) as (_ & _ & _ & Hpc & _).
    rewrite Hpc, Z.eqb_refl. reflexivity. }
  destruct (lda_effect s a) as (Ha & Hx & Hy & _ & Hm & Hbits).
  exists (set_pc (lda s a) (u16_wrapping_add (pc (lda s a)) (bytes op))).
  unfold step. rewrite Hget, Hdisp.
  split; [reflexivity |].
  change (reg_status (set_pc (lda s a) ?v)) with (reg_status (lda s a)).
  split; [exact Ha |]. split; [exact Hx |]. split; [exact Hy |].
  split; [exact Hm |].
  split; [rewrite Hbits by lia; reflexivity |].
  split; [rewrite Hbits by lia; reflexivity |].
  intros i Hi. rewrite Hbits by (simpl in Hi; lia).
  repeat destruct Hi as [<- | Hi]; try reflexivity. destruct Hi.
Qed.

(** LDA #$80 at 0x8000 with the carry flag set. *)
Definition cpu_lda_imm : CPU :=
  mkCPU 0 0x11 0x22 Status_C 0x8000 (mem_of [(0x8000, 0xa9); (0x8001, 0x80)]).

Lemma lda_step_witness :
  OPCODE_MAP_get (read_mem cpu_lda_imm (pc cpu_lda_imm)) <> None /\
  exists s', step cpu_lda_imm = Some (true, s') /\
    reg_a s' = read_mem cpu_lda_imm 0x8001 /\ reg_x s' = reg_x cpu_lda_imm /\
    reg_y s' = reg_y cpu_lda_imm /\ mem s' = mem cpu_lda_imm /\
    Z.testbit (reg_status s') 1 = (read_mem cpu_lda_imm 0x8001 =? 0) /\
    Z.testbit (reg_status s') 7 = Z.testbit (read_mem cpu_lda_imm 0x8001) 7 /\
    (forall i, In i [0; 2; 3; 4; 6] ->
       Z.testbit (reg_status s') i = Z.testbit (reg_status cpu_lda_imm) i).
Proof.
  split; [discriminate |].
  apply (lda_step cpu_lda_imm (mkOpCode OPCODE_LDA_IMMEDIATE "LDA" 2 2 Immediate)
           0x8001); reflexivity.
Defined.

(** ** C6: bit 5 of the status register *)

(** The state a finished [run] or [interpret] leaves behind. *)
Definition exec_state (e : Exec) : option CPU :=
  match e with
  | Returned s _ => Some s
  | OutOfFuel s => Some s
  | Panicked => None
  end.

(** States reachable from [CPU::new] through the public operations. *)
Inductive reachable : CPU -> Prop :=
| reach_new : reachable CPU_new
| reach_load (s s' : CPU) (program : list Z) (r : Res) :
    reachable s -> load s program = (s', r) -> reachable s'
| reach_reset (s s' : CPU) :
    reachable s -> reset s = Some s' -> reachable s'
| reach_step (s s' : CPU) (b : bool) :
    reachable s -> step s = Some (b, s') -> reachable s'
| reach_run (s s' : CPU) (fuel : nat) :
    reachable s -> exec_state (run fuel s) = Some s' -> reachable s'
| reach_interpret (s s' : CPU) (fuel : nat) (program : list Z) :
    reachable s -> exec_state (interpret fuel s program) = Some s' -> reachable s'.

Definition bit5 (s : CPU) : bool := Z.testbit (reg_status s) 5.

Lemma set_flags_bit5 (s : CPU) (r : Z) :
  bit5 (set_zero_flag (set_negative_flag s r) r) = bit5 s.
Proof.
  unfold bit5. rewrite set_zero_flag_bits, set_negative_flag_bits by lia.
  reflexivity.
Qed.

Lemma run_handler_bit5 (h : InstructionHandler) (s : CPU) (a : Z) :
  bit5 (run_handler h s a) = bit5 s.
Proof.
  destruct h; simpl; try reflexivity;
    unfold inx, lda, tax;
    match goal with
    | |- bit5 (set_zero_flag (set_negative_flag ?s1 ?r) _) = _ =>
        unfold bit5; rewrite set_zero_flag_bits, set_negative_flag_bits by lia;
        reflexivity
    end.
Qed.

Lemma step_bit5 (s s' : CPU) (b : bool) :
  step s = Some (b, s') -> bit5 s' = bit5 s.
Proof.
  unfold step, dispatch_instruction.
  destruct (OPCODE_MAP_get _) as [op |]; [| discriminate].
  destruct (INSTRUCTION_HANDLERS_get (code op)) as [h |]; [| discriminate].
  destruct (read_operand_address _ _ _) as [a |]; [| discriminate].
  intros H. injection H as _ <-.
  destruct (pc s =? pc (run_handler h s a));
    [change (bit5 (set_pc ?x ?v)) with (bit5 x) |];
    apply run_handler_bit5.
Qed.

Lemma step_loop_bit5 (n : nat) (s s' : CPU) :
  bit5 s = false -> exec_state (step_loop n s) = Some s' -> bit5 s' = false.
Proof.
  revert s. induction n as [| n IH]; intros s H5 H; simpl in H.
  - injection H as <-. exact H5.
  - destruct (step s) as [[[|] s1] |] eqn:E; try discriminate.
    + apply (IH s1); [rewrite (step_bit5 _ _ _ E); exact H5 | exact H].
    + injection H as <-. rewrite (step_bit5 _ _ _ E). exact H5.
Qed.

Lemma run_bit5 (n : nat) (s s' : CPU) :
  bit5 s = false -> exec_state (run n s) = Some s' -> bit5 s' = false.
Proof. intros H5. apply step_loop_bit5. exact H5. Qed.

Lemma load_status (s s' : CPU) (program : list Z) (r : Res) :
  load s program = (s', r) -> reg_status s' = reg_status s.
Proof.
  unfold load. destruct (Mem_write_range _ _ _) as [m1 [|]].
  - destruct (Mem_write16 _ _ _) as [m2 r2]. intros H. injection H as <- _.
    reflexivity.
  - intros H. injection H as <- _. reflexivity.
Qed.

Lemma reset_status (s s' : CPU) :
  reset s = Some s' -> reg_status s' = Status_empty.
Proof.
  unfold reset. destruct (read_mem16 _ _); [| discriminate].
  intros H. injection H as <-. reflexivity.
Qed.

Lemma interpret_bit5 (n : nat) (s s' : CPU) (program : list Z) :
  bit5 s = false -> exec_state (interpret n s program) = Some s' ->
  bit5 s' = false.
Proof.
  intros H5. unfold interpret.
  destruct (load s program) as [s1 r] eqn:El.
  pose proof (load_status _ _ _ _ El) as Hs1.
  destruct r.
  - destruct (reset s1) as [s2 |] eqn:Er; [| discriminate].
    apply run_bit5. unfold bit5. rewrite (reset_status _ _ Er). reflexivity.
  - intros H. injection H as <-. unfold bit5. rewrite Hs1. exact H5.
Qed.

(** Claim C6 (as stated: bit 5 of the status is 1 in every reachable
    state) is false: the status of [CPU::new] is [Status::empty()], 0. *)
Lemma new_status_bit5_clear :
  reachable CPU_new /\ Z.testbit (reg_status CPU_new) 5 = false.
Proof. split; [apply reach_new | reflexivity]. Qed.

(** Claim C6, amended: the status register holds only the seven flags;
    bit 5 is 0 in every reachable state ([CPU::new] and [reset] clear it)
    and no executed instruction changes it. *)
Theorem status_bit5_clear :
  (forall s, reachable s -> Z.testbit (reg_status s) 5 = false) /\
  (forall s s' b, step s = Some (b, s') ->
     Z.testbit (reg_status s') 5 = Z.testbit (reg_status s) 5).
Proof.
  split; [| exact step_bit5].
  intros s Hr. change (bit5 s = false).
  induction Hr as [| s s' p r _ IH E | s s' _ IH E | s s' b _ IH E
                  | s s' n _ IH E | s s' n p _ IH E].
  - reflexivity.
  - unfold bit5. rewrite (load_status _ _ _ _ E). exact IH.
  - unfold bit5. rewrite (reset_status _ _ E). reflexivity.
  - rewrite (step_bit5 _ _ _ E). exact IH.
  - exact (run_bit5 _ _ _ IH E).
  - exact (interpret_bit5 _ _ _ _ IH E).
Qed.

(** * Further properties of the code *)

(** ** [Mem::write_range] *)

Lemma write_bytes_spec (val : list Z) (m : Mem) (start a : Z) :
  write_bytes m start val a =
  if (start <=? a) && (a <? start + Z.of_nat (List.length val))
  then nth (Z.to_nat (a - start)) val 0 else m a.
Proof.
  revert m start. induction val as [| b rest IH]; intros m start;
    cbn [write_bytes List.length].
  - change (Z.of_nat 0) with 0.
    destruct ((start <=? a) && (a <? start + 0)) eqn:E; [| reflexivity].
    apply andb_true_iff in E as [E1 E2]. apply Z.leb_le in E1.
    apply Z.ltb_lt in E2. lia.
  - rewrite IH, Nat2Z.inj_succ. unfold Mem_write.
    destruct (Z.leb_spec (start + 1) a), (Z.ltb_spec a (start + 1 + Z.of_nat (List.length rest)));
      destruct (Z.leb_spec start a), (Z.ltb_spec a (start + Z.succ (Z.of_nat (List.length rest))));
      destruct (Z.eqb_spec a start); simpl; try lia; try reflexivity.
    + replace (Z.to_nat (a - start)) with (S (Z.to_nat (a - (start + 1)))) by lia.
      reflexivity.
    + subst a. replace (start - start) with 0 by lia. reflexivity.
Qed.

Lemma write_range_spec_aux (m : Mem) (start : Z) (val : list Z) :
  (start + Z.of_nat (List.length val) > 65536 ->
   Mem_write_range m start val = (m, Err)) /\
  (start + Z.of_nat (List.length val) <= 65536 ->
   exists m', Mem_write_range m start val = (m', Ok) /\
     (forall i, 0 <= i < Z.of_nat (List.length val) ->
        Mem_read m' (start + i) = nth (Z.to_nat i) val 0) /\
     (forall a, a < start \/ start + Z.of_nat (List.length val) <= a ->
        Mem_read m' a = Mem_read m a)).
Proof.
  unfold Mem_write_range, MEM_ADDR_SPACE_SIZE, MEM_ADDR_MAX. split.
  - intros H. rewrite Z.gtb_ltb. replace (65535 + 1 <? _) with true
      by (symmetry; apply Z.ltb_lt; lia). reflexivity.
  - intros H. rewrite Z.gtb_ltb. replace (65535 + 1 <? _) with false
      by (symmetry; apply Z.ltb_ge; lia).
    eexists. split; [reflexivity |]. unfold Mem_read. split.
    + intros i Hi. rewrite write_bytes_spec.
      replace ((start <=? start + i) && (start + i <? start + _)) with true
        by (symmetry; apply andb_true_iff; split; [apply Z.leb_le | apply Z.ltb_lt]; lia).
      f_equal. f_equal. lia.
    + intros a Ha. rewrite write_bytes_spec.
      destruct (Z.leb_spec start a), (Z.ltb_spec a (start + Z.of_nat (List.length val)));
        simpl; try reflexivity; lia.
Qed.

(** [write_range(start, val)] fails, leaving memory untouched, exactly when
    [start + val.len()] exceeds 65536; otherwise it succeeds, byte i of
    [val] lands at [start + i], and every address outside the range keeps
    its old byte. *)
Theorem write_range_spec (m : Mem) (start : Z) (val : list Z) :
  (start + Z.of_nat (List.length val) > 65536 ->
   Mem_write_range m start val = (m, Err)) /\
  (start + Z.of_nat (List.length val) <= 65536 ->
   exists m', Mem_write_range m start val = (m', Ok) /\
     (forall i, 0 <= i < Z.of_nat (List.length val) ->
        Mem_read m' (start + i) = nth (Z.to_nat i) val 0) /\
     (forall a, a < start \/ start + Z.of_nat (List.length val) <= a ->
        Mem_read m' a = Mem_read m a)).
Proof. apply write_range_spec_aux. Qed.

(** ** [Mem::read16] on bytes *)

Lemma testbit_above_byte (v i : Z) :
  0 <= v < 256 -> 8 <= i -> Z.testbit v i = false.
Proof.
  intros Hv Hi.
  rewrite <- (Z.mod_small v (2 ^ 8)) by (simpl; lia).
  apply Z.mod_pow2_bits_high. lia.
Qed.

Lemma lor_shift8_add (hi lo : Z) :
  0 <= hi < 256 -> 0 <= lo < 256 ->
  Z.lor (Z.land (Z.shiftl hi 8) 0xffff) lo = lo + 256 * hi.
Proof.
  intros Hh Hl.
  assert (Hs : Z.land (Z.shiftl hi 8) 0xffff = hi * 256).
  { rewrite Z.shiftl_mul_pow2 by lia. change (2 ^ 8) with 256.
    change 0xffff with (Z.ones 16). rewrite Z.land_ones by lia.
    apply Z.mod_small. change (2 ^ 16) with 65536. lia. }
  rewrite Hs.
  assert (Hd : Z.land (hi * 256) lo = 0).
  { apply Z.bits_inj'. intros i Hi. rewrite Z.land_spec, Z.bits_0.
    change 256 with (2 ^ 8). rewrite <- Z.shiftl_mul_pow2 by lia.
    destruct (Z.ltb_spec i 8).
    - rewrite Z.shiftl_spec_low by lia. reflexivity.
    - rewrite (testbit_above_byte lo i) by lia. apply andb_false_r. }
  rewrite <- Z.lxor_lor by exact Hd. rewrite <- Z.add_nocarry_lxor by exact Hd.
  lia.
Qed.

(** Below the last address, [read16] on a memory of bytes is the
    little-endian value [lo + 256 * hi]. *)
Theorem read16_little_endian (m : Mem) (addr : Z) :
  0 <= addr < 65535 ->
  0 <= Mem_read m addr < 256 -> 0 <= Mem_read m (addr + 1) < 256 ->
  Mem_read16 m addr = Some (Mem_read m addr + 256 * Mem_read m (addr + 1)).
Proof.
  intros Ha Hlo Hhi. unfold Mem_read16, MEM_ADDR_MAX.
  replace (addr =? 65535) with false by (symmetry; apply Z.eqb_neq; lia).
  replace (u16_wrapping_add addr 1) with (addr + 1)
    by (unfold u16_wrapping_add; symmetry; apply Z.mod_small; lia).
  f_equal. apply lor_shift8_add; assumption.
Qed.

Lemma read16_little_endian_witness :
  (0 <= 0x8000 < 65535 /\
   0 <= Mem_read (mem_of [(0x8000, 0xcd); (0x8001, 0xab)]) 0x8000 < 256 /\
   0 <= Mem_read (mem_of [(0x8000, 0xcd); (0x8001, 0xab)]) (0x8000 + 1) < 256) /\
  Mem_read16 (mem_of [(0x8000, 0xcd); (0x8001, 0xab)]) 0x8000 =
  Some (Mem_read (mem_of [(0x8000, 0xcd); (0x8001, 0xab)]) 0x8000 +
        256 * Mem_read (mem_of [(0x8000, 0xcd); (0x8001, 0xab)]) (0x8000 + 1)).
Proof.
  split; [vm_compute; repeat split; discriminate |].
  apply read16_little_endian; vm_compute; repeat split; discriminate.
Defined.

(** ** [CPU::load], [CPU::reset] *)

(** A program longer than the 32768-byte PRG ROM is rejected: [load]
    returns [Err] and leaves the CPU, memory included, unchanged, and so
    [interpret] returns that [Err] without running anything. *)
Theorem load_rejects_long_program (s : CPU) (program : list Z) (fuel : nat) :
  Z.of_nat (List.length program) > 32768 ->
  load s program = (s, Err) /\ interpret fuel s program = Returned s Err.
Proof.
  intros H.
  assert (Hl : load s program = (s, Err)).
  { unfold load.
    destruct (write_range_spec_aux (mem s) MEM_PRG_ROM_ADDR_START program) as [Hf _].
    rewrite Hf by (unfold MEM_PRG_ROM_ADDR_START; lia).
    destruct s; reflexivity. }
  split; [exact Hl |]. unfold interpret. rewrite Hl. reflexivity.
Qed.

Lemma load_rejects_long_program_witness :
  Z.of_nat (List.length (repeat 0 (Z.to_nat 32769))) > 32768 /\
  load CPU_new (repeat 0 (Z.to_nat 32769)) = (CPU_new, Err) /\
  interpret 1 CPU_new (repeat 0 (Z.to_nat 32769)) = Returned CPU_new Err.
Proof.
  assert (H : Z.of_nat (List.length (repeat 0 (Z.to_nat 32769))) > 32768)
    by (rewrite repeat_length, Z2Nat.id by lia; lia).
  split; [exact H |]. apply load_rejects_long_program. exact H.
Defined.

Lemma load_places_program_aux (s : CPU) (program : list Z) :
  Z.of_nat (List.length program) <= 32768 ->
  exists s', load s program = (s', Ok) /\
    (forall i, 0 <= i < Z.of_nat (List.length program) ->
       i <> 0x7ffc -> i <> 0x7ffd ->
       read_mem s' (0x8000 + i) = nth (Z.to_nat i) program 0) /\
    (forall a, a < 0x8000 -> read_mem s' a = read_mem s a) /\
    reg_a s' = reg_a s /\ reg_x s' = reg_x s /\ reg_y s' = reg_y s /\
    reg_status s' = reg_status s /\ pc s' = pc s.
Proof.
  intros H. unfold load.
  destruct (write_range_spec_aux (mem s) MEM_PRG_ROM_ADDR_START program) as [_ Hs].
  destruct Hs as (m1 & E & Hin & Hout); [unfold MEM_PRG_ROM_ADDR_START; lia |].
  assert (Hw : Mem_write16 m1 INIT_PROGRAM_COUNTER_ADDR MEM_PRG_ROM_ADDR_START =
              (Mem_write (Mem_write m1 0xfffc 0) 0xfffd 0x80, Ok)) by reflexivity.
  rewrite E, Hw. eexists. split; [reflexivity |].
  unfold MEM_PRG_ROM_ADDR_START in Hin, Hout.
  unfold read_mem, set_mem. cbn [mem reg_a reg_x reg_y reg_status pc].
  split; [| split; [| repeat split]].
  - intros i Hi H1 H2. unfold Mem_read at 1, Mem_write.
    replace (0x8000 + i =? 0xfffd) with false by (symmetry; apply Z.eqb_neq; lia).
    replace (0x8000 + i =? 0xfffc) with false by (symmetry; apply Z.eqb_neq; lia).
    apply Hin. exact Hi.
  - intros a Ha. unfold Mem_read at 1, Mem_write.
    replace (a =? 0xfffd) with false by (symmetry; apply Z.eqb_neq; lia).
    replace (a =? 0xfffc) with false by (symmetry; apply Z.eqb_neq; lia).
    apply Hout. lia.
Qed.

(** A program that fits is copied to 0x8000 onwards, except the two bytes
    at offsets 0x7FFC and 0x7FFD, which the reset vector overwrites; memory
    below 0x8000 and every register are left as they were. *)
Theorem load_places_program (s : CPU) (program : list Z) :
  Z.of_nat (List.length program) <= 32768 ->
  exists s', load s program = (s', Ok) /\
    (forall i, 0 <= i < Z.of_nat (List.length program) ->
       i <> 0x7ffc -> i <> 0x7ffd ->
       read_mem s' (0x8000 + i) = nth (Z.to_nat i) program 0) /\
    (forall a, a < 0x8000 -> read_mem s' a = read_mem s a) /\
    reg_a s' = reg_a s /\ reg_x s' = reg_x s /\ reg_y s' = reg_y s /\
    reg_status s' = reg_status s /\ pc s' = pc s.
Proof. apply load_places_program_aux. Qed.

Lemma load_places_program_witness :
  Z.of_nat (List.length [0xa9; 0x0f; 0x00]) <= 32768 /\
  exists s', load CPU_new [0xa9; 0x0f; 0x00] = (s', Ok) /\
    (forall i, 0 <= i < Z.of_nat (List.length [0xa9; 0x0f; 0x00]) ->
       i <> 0x7ffc -> i <> 0x7ffd ->
       read_mem s' (0x8000 + i) = nth (Z.to_nat i) [0xa9; 0x0f; 0x00] 0) /\
    (forall a, a < 0x8000 -> read_mem s' a = read_mem CPU_new a) /\
    reg_a s' = reg_a CPU_new /\ reg_x s' = reg_x CPU_new /\
    reg_y s' = reg_y CPU_new /\ reg_status s' = reg_status CPU_new /\
    pc s' = pc CPU_new.
Proof.
  split; [simpl; lia |]. apply load_places_program. simpl. lia.
Defined.

Lemma reset_spec_aux (s : CPU) :
  exists s', reset s = Some s' /\
    reg_a s' = 0 /\ reg_x s' = 0 /\ reg_y s' = 0 /\
    reg_status s' = Status_empty /\ mem s' = mem s /\
    Mem_read16 (mem s) INIT_PROGRAM_COUNTER_ADDR = Some (pc s').
Proof.
  unfold reset, read_mem16, Mem_read16. simpl.
  eexists. split; [reflexivity |]. repeat split.
Qed.

(** [reset] never panics: it zeroes A, X, Y and the status, keeps memory,
    and loads PC with the 16-bit value stored at the reset vector 0xFFFC. *)
Theorem reset_spec (s : CPU) :
  exists s', reset s = Some s' /\
    reg_a s' = 0 /\ reg_x s' = 0 /\ reg_y s' = 0 /\
    reg_status s' = Status_empty /\ mem s' = mem s /\
    Mem_read16 (mem s) INIT_PROGRAM_COUNTER_ADDR = Some (pc s').
Proof. apply reset_spec_aux. Qed.

(** ** The opcode and handler tables *)

(** Every catalog entry is found by its own opcode byte: the keys of
    [OPCODES] are distinct, so building [OPCODE_MAP] loses no entry. *)
Theorem OPCODE_MAP_finds_every_entry (op : OpCode) :
  In op OPCODES -> OPCODE_MAP_get (code op) = Some op.
Proof.
  unfold OPCODES. intros Hin.
  repeat (destruct Hin as [<- | Hin]; [reflexivity |]). destruct Hin.
Qed.

Lemma OPCODE_MAP_finds_every_entry_witness :
  In (mkOpCode OPCODE_TAX "TAX" 1 1 NoneAddressing) OPCODES /\
  OPCODE_MAP_get (code (mkOpCode OPCODE_TAX "TAX" 1 1 NoneAddressing)) =
  Some (mkOpCode OPCODE_TAX "TAX" 1 1 NoneAddressing).
Proof.
  assert (H : In (mkOpCode OPCODE_TAX "TAX" 1 1 NoneAddressing) OPCODES)
    by (simpl; tauto).
  split; [exact H | apply OPCODE_MAP_finds_every_entry; exact H].
Defined.

(** [OPCODE_MAP] and [INSTRUCTION_HANDLERS] have the same keys, so the
    [unwrap] of the handler lookup in [dispatch_instruction] never panics. *)
Theorem opcode_and_handler_tables_agree (b : Z) :
  OPCODE_MAP_get b = None <-> INSTRUCTION_HANDLERS_get b = None.
Proof.
  split.
  - intros Hn. unfold INSTRUCTION_HANDLERS_get.
    destruct (find _ _) as [[k h] |] eqn:E; [| reflexivity].
    apply find_some in E as [Hin Hk]. apply in_rev in Hin.
    apply Z.eqb_eq in Hk. simpl in Hk. subst k.
    exfalso. unfold INSTRUCTION_HANDLERS in Hin.
    repeat (destruct Hin as [Hin | Hin];
            [injection Hin as <- _; discriminate Hn |]).
    destruct Hin.
  - intros Hn. destruct (OPCODE_MAP_get b) as [op |] eqn:E; [| reflexivity].
    apply OPCODE_MAP_get_in in E as [Hin <-].
    apply catalog_has_handlers in Hin as [_ [h Hh]]. congruence.
Qed.

(** ** [step] for the instructions that do not jump *)

Lemma step_no_jump (s : CPU) (op : OpCode) (h : InstructionHandler) (a : Z) :
  OPCODE_MAP_get (read_mem s (pc s)) = Some op ->
  INSTRUCTION_HANDLERS_get (code op) = Some h ->
  read_operand_address s (u16_wrapping_add (pc s) 1) (addressing_mode op) = Some a ->
  pc (run_handler h s a) = pc s ->
  step s = Some (negb (code op =? OPCODE_BRK),
                 set_pc (run_handler h s a) (u16_wrapping_add (pc s) (bytes op))).
Proof.
  intros Hg Hh Hr Hpc. unfold step, dispatch_instruction.
  rewrite Hg, Hh, Hr, Hpc, Z.eqb_refl. reflexivity.
Qed.

Lemma handler_keeps_pc (h : InstructionHandler) (s : CPU) (a : Z) :
  h <> H_jmp -> pc (run_handler h s a) = pc s.
Proof.
  intros Hj. destruct h; [reflexivity | | exfalso; apply Hj; reflexivity | |];
    simpl; unfold lda, inx, tax;
    match goal with
    | |- pc (set_zero_flag ?s2 ?r) = _ =>
        destruct (set_zero_flag_regs s2 r) as (_ & _ & _ & -> & _)
    end;
    match goal with
    | |- pc (set_negative_flag ?s1 ?r) = _ =>
        destruct (set_negative_flag_regs s1 r) as (_ & _ & _ & -> & _)
    end; reflexivity.
Qed.

(** A successful step on a catalog instruction signals halt exactly for
    BRK, JMP included; and every catalog instruction other than JMP leaves
    PC at the address just past it, [pc + bytes] modulo 2^16. *)
Theorem step_advances_pc (s s' : CPU) (op : OpCode) (b : bool) :
  OPCODE_MAP_get (read_mem s (pc s)) = Some op ->
  step s = Some (b, s') ->
  b = negb (code op =? OPCODE_BRK) /\
  (code op <> OPCODE_JMP_ABSOLUTE -> pc s' = (pc s + bytes op) mod 65536).
Proof.
  intros Hg Hs. split.
  - unfold step, dispatch_instruction in Hs. rewrite Hg in Hs.
    destruct (INSTRUCTION_HANDLERS_get (code op)); [| discriminate].
    destruct (read_operand_address _ _ _); [| discriminate].
    injection Hs as <- _. reflexivity.
  - intros Hj.
    pose proof Hg as Hin. apply OPCODE_MAP_get_in in Hin as [Hin _].
    assert (Hh : exists h, INSTRUCTION_HANDLERS_get (code op) = Some h /\ h <> H_jmp).
    { unfold OPCODES in Hin.
      repeat (destruct Hin as [<- | Hin];
              [first [exfalso; apply Hj; reflexivity
                     | eexists; split; [reflexivity | discriminate]] |]).
      destruct Hin. }
    destruct Hh as [h [Hh Hnj]].
    destruct (read_operand_address s (u16_wrapping_add (pc s) 1) (addressing_mode op))
      as [a |] eqn:Hr.
    + rewrite (step_no_jump s op h a Hg Hh Hr (handler_keeps_pc h s a Hnj)) in Hs.
      injection Hs as _ <-. reflexivity.
    + unfold step, dispatch_instruction in Hs. rewrite Hg, Hh, Hr in Hs. discriminate.
Qed.

(** A JMP to another address: the step continues. *)
Definition cpu_jmp_far : CPU :=
  mkCPU 0 0 0 Status_empty 0x8000
    (mem_of [(0x8000, OPCODE_JMP_ABSOLUTE); (0x8001, 0x34); (0x8002, 0x12)]).

Lemma step_advances_pc_witness :
  OPCODE_MAP_get (read_mem cpu_jmp_far (pc cpu_jmp_far)) =
    Some (mkOpCode OPCODE_JMP_ABSOLUTE "JMP" 3 3 Absolute) /\
  exists s', step cpu_jmp_far = Some (true, s') /\
    true = negb (code (mkOpCode OPCODE_JMP_ABSOLUTE "JMP" 3 3 Absolute) =? OPCODE_BRK) /\
    (code (mkOpCode OPCODE_JMP_ABSOLUTE "JMP" 3 3 Absolute) <> OPCODE_JMP_ABSOLUTE ->
     pc s' = (pc cpu_jmp_far + bytes (mkOpCode OPCODE_JMP_ABSOLUTE "JMP" 3 3 Absolute))
               mod 65536).
Proof.
  split; [reflexivity |].
  eexists. split; [reflexivity |].
  apply (step_advances_pc cpu_jmp_far _ _ true); reflexivity.
Defined.

Lemma inx_effect (s : CPU) (a : Z) :
  let s' := inx s a in
  reg_x s' = (reg_x s + 1) mod 256 /\ reg_a s' = reg_a s /\ reg_y s' = reg_y s /\
  pc s' = pc s /\ mem s' = mem s /\
  forall i, 0 <= i < 8 ->
    Z.testbit (reg_status s') i =
    if i =? 1 then ((reg_x s + 1) mod 256 =? 0)
    else if i =? 7 then Z.testbit ((reg_x s + 1) mod 256) 7
    else Z.testbit (reg_status s) i.
Proof.
  unfold inx.
  set (s1 := set_reg_x s (u8_wrapping_add (reg_x s) 1)).
  set (s2 := set_negative_flag s1 (reg_x s1)).
  destruct (set_negative_flag_regs s1 (reg_x s1)) as (Na & Nx & Ny & Npc & Nm).
  destruct (set_zero_flag_regs s2 (reg_x s2)) as (Za & Zx & Zy & Zpc & Zm).
  fold s2 in Na, Nx, Ny, Npc, Nm.
  rewrite Za, Zx, Zy, Zpc, Zm, Na, Nx, Ny, Npc, Nm.
  repeat split.
  intros i Hi.
  rewrite set_zero_flag_bits by exact Hi.
  destruct (Z.eqb_spec i 1) as [-> | H1]; [reflexivity |].
  unfold s2. rewrite set_negative_flag_bits by exact Hi. reflexivity.
Qed.

Lemma tax_effect (s : CPU) (a : Z) :
  let s' := tax s a in
  reg_x s' = reg_a s /\ reg_a s' = reg_a s /\ reg_y s' = reg_y s /\
  pc s' = pc s /\ mem s' = mem s /\
  forall i, 0 <= i < 8 ->
    Z.testbit (reg_status s') i =
    if i =? 1 then (reg_a s =? 0)
    else if i =? 7 then Z.testbit (reg_a s) 7
    else Z.testbit (reg_status s) i.
Proof.
  unfold tax.
  set (s1 := set_reg_x s (reg_a s)).
  set (s2 := set_negative_flag s1 (reg_x s1)).
  destruct (set_negative_flag_regs s1 (reg_x s1)) as (Na & Nx & Ny & Npc & Nm).
  destruct (set_zero_flag_regs s2 (reg_x s2)) as (Za & Zx & Zy & Zpc & Zm).
  fold s2 in Na, Nx, Ny, Npc, Nm.
  rewrite Za, Zx, Zy, Zpc, Zm, Na, Nx, Ny, Npc, Nm.
  repeat split.
  intros i Hi.
  rewrite set_zero_flag_bits by exact Hi.
  destruct (Z.eqb_spec i 1) as [-> | H1]; [reflexivity |].
  unfold s2. rewrite set_negative_flag_bits by exact Hi. reflexivity.
Qed.

Lemma inx_step_aux (s : CPU) :
  read_mem s (pc s) = OPCODE_INX ->
  exists s', step s = Some (true, s') /\
    reg_x s' = (reg_x s + 1) mod 256 /\
    reg_a s' = reg_a s /\ reg_y s' = reg_y s /\ mem s' = mem s /\
    pc s' = (pc s + 1) mod 65536 /\
    forall i, 0 <= i < 8 ->
      Z.testbit (reg_status s') i =
      if i =? 1 then ((reg_x s + 1) mod 256 =? 0)
      else if i =? 7 then Z.testbit ((reg_x s + 1) mod 256) 7
      else Z.testbit (reg_status s) i.
Proof.
  intros Hop.
  assert (Hg : OPCODE_MAP_get (read_mem s (pc s)) =
               Some (mkOpCode OPCODE_INX "INX" 1 2 NoneAddressing))
    by (rewrite Hop; reflexivity).
  rewrite (step_no_jump s _ H_inx DEBUG_ADDR Hg eq_refl eq_refl
             (handler_keeps_pc H_inx s DEBUG_ADDR ltac:(discriminate))).
  eexists. split; [reflexivity |].
  destruct (inx_effect s DEBUG_ADDR) as (Hx & Ha & Hy & _ & Hm & Hb).
  cbn [run_handler]. cbn [reg_x reg_a reg_y mem reg_status pc set_pc].
  repeat split; assumption.
Qed.

(** INX: X becomes X + 1 modulo 256 (no carry is recorded), Z and N follow
    the new X, every other flag, A, Y and memory are unchanged, and PC moves
    past the one-byte instruction. *)
Theorem inx_step (s : CPU) :
  read_mem s (pc s) = OPCODE_INX ->
  exists s', step s = Some (true, s') /\
    reg_x s' = (reg_x s + 1) mod 256 /\
    reg_a s' = reg_a s /\ reg_y s' = reg_y s /\ mem s' = mem s /\
    pc s' = (pc s + 1) mod 65536 /\
    forall i, 0 <= i < 8 ->
      Z.testbit (reg_status s') i =
      if i =? 1 then ((reg_x s + 1) mod 256 =? 0)
      else if i =? 7 then Z.testbit ((reg_x s + 1) mod 256) 7
      else Z.testbit (reg_status s) i.
Proof. apply inx_step_aux. Qed.

(** TAX: X becomes A, Z and N follow the new X, every other flag, A, Y and
    memory are unchanged, and PC moves past the one-byte instruction. *)
Theorem tax_step (s : CPU) :
  read_mem s (pc s) = OPCODE_TAX ->
  exists s', step s = Some (true, s') /\
    reg_x s' = reg_a s /\
    reg_a s' = reg_a s /\ reg_y s' = reg_y s /\ mem s' = mem s /\
    pc s' = (pc s + 1) mod 65536 /\
    forall i, 0 <= i < 8 ->
      Z.testbit (reg_status s') i =
      if i =? 1 then (reg_a s =? 0)
      else if i =? 7 then Z.testbit (reg_a s) 7
      else Z.testbit (reg_status s) i.
Proof.
  intros Hop.
  assert (Hg : OPCODE_MAP_get (read_mem s (pc s)) =
               Some (mkOpCode OPCODE_TAX "TAX" 1 1 NoneAddressing))
    by (rewrite Hop; reflexivity).
  rewrite (step_no_jump s _ H_tax DEBUG_ADDR Hg eq_refl eq_refl
             (handler_keeps_pc H_tax s DEBUG_ADDR ltac:(discriminate))).
  eexists. split; [reflexivity |].
  destruct (tax_effect s DEBUG_ADDR) as (Hx & Ha & Hy & _ & Hm & Hb).
  cbn [run_handler]. cbn [reg_x reg_a reg_y mem reg_status pc set_pc].
  repeat split; assumption.
Qed.

Lemma brk_step_aux (s : CPU) :
  read_mem s (pc s) = OPCODE_BRK -> 0 <= pc s < 65536 ->
  step s = Some (false, s).
Proof.
  intros Hop Hpc.
  assert (Hg : OPCODE_MAP_get (read_mem s (pc s)) =
               Some (mkOpCode OPCODE_BRK "BRK" 0 7 NoneAddressing))
    by (rewrite Hop; reflexivity).
  rewrite (step_no_jump s _ H_brk DEBUG_ADDR Hg eq_refl eq_refl eq_refl).
  unfold u16_wrapping_add. cbn [bytes]. rewrite Z.add_0_r, Z.mod_small by exact Hpc.
  destruct s. reflexivity.
Qed.

(** BRK changes nothing: PC stays on the BRK byte and [step] signals halt. *)
Theorem brk_step (s : CPU) :
  read_mem s (pc s) = OPCODE_BRK -> 0 <= pc s < 65536 ->
  step s = Some (false, s).
Proof. apply brk_step_aux. Qed.

(** No implemented instruction writes memory or register Y. *)
Theorem step_preserves_mem_and_y (s s' : CPU) (b : bool) :
  step s = Some (b, s') -> mem s' = mem s /\ reg_y s' = reg_y s.
Proof.
  unfold step, dispatch_instruction.
  destruct (OPCODE_MAP_get _) as [op |]; [| discriminate].
  destruct (INSTRUCTION_HANDLERS_get (code op)) as [h |]; [| discriminate].
  destruct (read_operand_address _ _ _) as [a |]; [| discriminate].
  intros H. injection H as _ <-.
  assert (Hh : mem (run_handler h s a) = mem s /\ reg_y (run_handler h s a) = reg_y s).
  { destruct h; cbn [run_handler]; try (split; reflexivity).
    - destruct (lda_effect s a) as (_ & _ & Hy & _ & Hm & _). split; assumption.
    - destruct (inx_effect s a) as (_ & _ & Hy & _ & Hm & _). split; assumption.
    - destruct (tax_effect s a) as (_ & _ & Hy & _ & Hm & _). split; assumption. }
  destruct (pc s =? pc (run_handler h s a)); exact Hh.
Qed.

(** INX at 0x8000 with X = 0xFF and the carry flag set. *)
Definition cpu_inx : CPU :=
  mkCPU 0x05 0xff 0 Status_C 0x8000 (mem_of [(0x8000, 0xe8)]).

Lemma inx_step_witness :
  read_mem cpu_inx (pc cpu_inx) = OPCODE_INX /\
  exists s', step cpu_inx = Some (true, s') /\
    reg_x s' = (reg_x cpu_inx + 1) mod 256 /\
    reg_a s' = reg_a cpu_inx /\ reg_y s' = reg_y cpu_inx /\ mem s' = mem cpu_inx /\
    pc s' = (pc cpu_inx + 1) mod 65536 /\
    forall i, 0 <= i < 8 ->
      Z.testbit (reg_status s') i =
      if i =? 1 then ((reg_x cpu_inx + 1) mod 256 =? 0)
      else if i =? 7 then Z.testbit ((reg_x cpu_inx + 1) mod 256) 7
      else Z.testbit (reg_status cpu_inx) i.
Proof.
  split; [reflexivity |]. apply inx_step. reflexivity.
Defined.

(** TAX at 0x8000 with A = 0x90. *)
Definition cpu_tax : CPU :=
  mkCPU 0x90 0x01 0 Status_empty 0x8000 (mem_of [(0x8000, 0xaa)]).

Lemma tax_step_witness :
  read_mem cpu_tax (pc cpu_tax) = OPCODE_TAX /\
  exists s', step cpu_tax = Some (true, s') /\
    reg_x s' = reg_a cpu_tax /\
    reg_a s' = reg_a cpu_tax /\ reg_y s' = reg_y cpu_tax /\ mem s' = mem cpu_tax /\
    pc s' = (pc cpu_tax + 1) mod 65536 /\
    forall i, 0 <= i < 8 ->
      Z.testbit (reg_status s') i =
      if i =? 1 then (reg_a cpu_tax =? 0)
      else if i =? 7 then Z.testbit (reg_a cpu_tax) 7
      else Z.testbit (reg_status cpu_tax) i.
Proof.
  split; [reflexivity |]. apply tax_step. reflexivity.
Defined.

Lemma brk_step_witness :
  (read_mem CPU_new (pc CPU_new) = OPCODE_BRK /\ 0 <= pc CPU_new < 65536) /\
  step CPU_new = Some (false, CPU_new).
Proof.
  split; [split; [reflexivity | unfold CPU_new; simpl; lia] |].
  apply brk_step; [reflexivity | simpl; lia].
Defined.

Lemma step_preserves_mem_and_y_witness :
  step cpu_inx <> None /\
  exists b s', step cpu_inx = Some (b, s') /\
    mem s' = mem cpu_inx /\ reg_y s' = reg_y cpu_inx.
Proof.
  split; [discriminate |].
  destruct (step cpu_inx) as [[b s'] |] eqn:E; [| discriminate].
  exists b, s'. split; [reflexivity |].
  exact (step_preserves_mem_and_y cpu_inx s' b E).
Defined.

(** ** Machine-width invariants *)

(** Every cell of the memory holds a byte. *)
Definition mem_bytes (m : Mem) : Prop := forall a, 0 <= m a < 256.

Lemma lor_below_pow2 (x y n : Z) :
  0 <= n -> 0 <= x < 2 ^ n -> 0 <= y < 2 ^ n -> 0 <= Z.lor x y < 2 ^ n.
Proof.
  intros Hn Hx Hy.
  assert (E : Z.lor x y = Z.land (Z.lor x y) (Z.ones n)).
  { apply Z.bits_inj'. intros i Hi.
    rewrite Z.land_spec, Z.lor_spec, Z.testbit_ones_nonneg by lia.
    destruct (Z.ltb_spec i n); [rewrite andb_true_r; reflexivity |].
    rewrite <- (Z.mod_small x (2 ^ n)), <- (Z.mod_small y (2 ^ n)) by lia.
    rewrite !Z.mod_pow2_bits_high by lia. reflexivity. }
  rewrite E, Z.land_ones by lia. apply Z.mod_pos_bound. lia.
Qed.

Lemma read16_range (m : Mem) (addr v : Z) :
  mem_bytes m -> Mem_read16 m addr = Some v -> 0 <= v < 65536.
Proof.
  intros Hm. unfold Mem_read16.
  destruct (addr =? MEM_ADDR_MAX); [discriminate |].
  intros H. injection H as <-.
  change 65536 with (2 ^ 16). apply lor_below_pow2; [lia | |].
  - change 0xffff with (Z.ones 16). rewrite Z.land_ones by lia.
    apply Z.mod_pos_bound. lia.
  - unfold Mem_read. specialize (Hm addr). change (2 ^ 16) with 65536. lia.
Qed.

Lemma read_operand_address_range_aux (s : CPU) (a r : Z) (mode : AddressingMode) :
  mem_bytes (mem s) -> 0 <= a < 65536 ->
  read_operand_address s a mode = Some r ->
  0 <= r < 65536 /\
  ((mode = ZeroPage \/ mode = ZeroPageX \/ mode = ZeroPageY) -> r < 256).
Proof.
  intros Hm Ha.
  assert (Hu8 : forall x y, 0 <= u8_wrapping_add x y < 256)
    by (intros; unfold u8_wrapping_add; apply Z.mod_pos_bound; lia).
  assert (Hu16 : forall x y, 0 <= u16_wrapping_add x y < 65536)
    by (intros; unfold u16_wrapping_add; apply Z.mod_pos_bound; lia).
  assert (Hnz : forall r', 0 <= r' < 65536 -> forall P : Prop, ~ P ->
                0 <= r' < 65536 /\ (P -> r' < 256))
    by (intros r' Hr' P HP; split; [exact Hr' | intros; contradiction]).
  destruct mode; simpl; intros H.
  - injection H as <-. apply Hnz; [exact Ha | intros [? | [? | ?]]; discriminate].
  - injection H as <-. unfold read_mem, Mem_read. specialize (Hm a).
    split; [lia | intros; lia].
  - injection H as <-. pose proof (Hu8 (read_mem s a) (reg_x s)).
    split; [lia | intros; lia].
  - injection H as <-. pose proof (Hu8 (read_mem s a) (reg_y s)).
    split; [lia | intros; lia].
  - apply read16_range in H; [| exact Hm].
    apply Hnz; [exact H | intros [? | [? | ?]]; discriminate].
  - destruct (read_mem16 s a); [| discriminate]. injection H as <-.
    apply Hnz; [apply Hu16 | intros [? | [? | ?]]; discriminate].
  - destruct (read_mem16 s a); [| discriminate]. injection H as <-.
    apply Hnz; [apply Hu16 | intros [? | [? | ?]]; discriminate].
  - destruct (read_mem16 s a); [| discriminate].
    apply read16_range in H; [| exact Hm].
    apply Hnz; [exact H | intros [? | [? | ?]]; discriminate].
  - apply read16_range in H; [| exact Hm].
    apply Hnz; [exact H | intros [? | [? | ?]]; discriminate].
  - destruct (read_mem16 s a) as [p |]; [| discriminate].
    destruct (read_mem16 s p); [| discriminate]. injection H as <-.
    apply Hnz; [apply Hu16 | intros [? | [? | ?]]; discriminate].
  - injection H as <-.
    apply Hnz; [unfold DEBUG_ADDR; lia | intros [? | [? | ?]]; discriminate].
Qed.

(** With memory holding bytes and an operand address in range, the address
    resolver yields a 16-bit address, and for the zero-page modes an
    address in page zero. *)
Theorem read_operand_address_range (s : CPU) (a r : Z) (mode : AddressingMode) :
  mem_bytes (mem s) -> 0 <= a < 65536 ->
  read_operand_address s a mode = Some r ->
  0 <= r < 65536 /\
  ((mode = ZeroPage \/ mode = ZeroPageX \/ mode = ZeroPageY) -> r < 256).
Proof. apply read_operand_address_range_aux. Qed.

Lemma land_ff_byte (v : Z) : 0 <= Z.land v 0xff < 256.
Proof.
  change 0xff with (Z.ones 8). rewrite Z.land_ones by lia.
  apply Z.mod_pos_bound. lia.
Qed.

Lemma Mem_write_bytes (m : Mem) (addr v : Z) :
  mem_bytes m -> 0 <= v < 256 -> mem_bytes (Mem_write m addr v).
Proof.
  intros Hm Hv a. unfold Mem_write. destruct (a =? addr); [exact Hv | apply Hm].
Qed.

Lemma Mem_write16_bytes (m m' : Mem) (addr v : Z) (r : Res) :
  mem_bytes m -> Mem_write16 m addr v = (m', r) -> mem_bytes m'.
Proof.
  intros Hm. unfold Mem_write16.
  destruct (addr =? MEM_ADDR_MAX); intros H; injection H as <- _; [exact Hm |].
  apply Mem_write_bytes; [apply Mem_write_bytes; [exact Hm |] |];
    apply land_ff_byte.
Qed.

Lemma nth_Forall_default {A : Type} (P : A -> Prop) (l : list A) (d : A) (n : nat) :
  Forall P l -> P d -> P (nth n l d).
Proof.
  intros Hl Hd. revert n.
  induction Hl as [| x l Hx _ IH]; intros [| n]; simpl; auto.
Qed.

Lemma Mem_write_range_bytes (m m' : Mem) (start : Z) (val : list Z) (r : Res) :
  mem_bytes m -> Forall (fun b => 0 <= b < 256) val ->
  Mem_write_range m start val = (m', r) -> mem_bytes m'.
Proof.
  intros Hm Hv. unfold Mem_write_range.
  destruct (_ >? _); intros H; injection H as <- _; [exact Hm |].
  intros a. rewrite write_bytes_spec.
  destruct (_ && _); [| apply Hm].
  apply (nth_Forall_default (fun b => 0 <= b < 256)); [exact Hv | lia].
Qed.

Lemma mem_of_bytes (writes : list (Z * Z)) :
  Forall (fun w => 0 <= snd w < 256) writes -> mem_bytes (mem_of writes).
Proof.
  unfold mem_of.
  assert (G : forall m, mem_bytes m -> Forall (fun w => 0 <= snd w < 256) writes ->
            mem_bytes (fold_left (fun m w => Mem_write m (fst w) (snd w)) writes m)).
  { induction writes as [| w rest IH]; intros m Hm Hw; simpl; [exact Hm |].
    inversion Hw as [| ? ? Hw1 Hw2]; subst.
    apply IH; [apply Mem_write_bytes; assumption | exact Hw2]. }
  intros Hw. apply G; [intros a; unfold Mem_new; lia | exact Hw].
Qed.

Lemma read_operand_address_range_witness :
  (mem_bytes (mem cpu_indirect_y) /\ 0 <= 0x8001 < 65536 /\
   read_operand_address cpu_indirect_y 0x8001 ZeroPage = Some 0x10) /\
  0 <= 0x10 < 65536 /\
  ((ZeroPage = ZeroPage \/ ZeroPage = ZeroPageX \/ ZeroPage = ZeroPageY) -> 0x10 < 256).
Proof.
  assert (Hm : mem_bytes (mem cpu_indirect_y))
    by (apply mem_of_bytes; repeat constructor; simpl; lia).
  split; [split; [exact Hm | split; [lia | reflexivity]] |].
  apply (read_operand_address_range cpu_indirect_y 0x8001 0x10 ZeroPage Hm);
    [lia | reflexivity].
Defined.

(** A CPU state whose fields hold values of their Rust widths. *)
Definition cpu_wf (s : CPU) : Prop :=
  mem_bytes (mem s) /\ 0 <= reg_a s < 256 /\ 0 <= reg_x s < 256 /\
  0 <= reg_y s < 256 /\ 0 <= pc s < 65536.

Ltac solve_wf :=
  unfold cpu_wf; cbn [mem reg_a reg_x reg_y pc set_pc set_mem];
  refine (conj _ (conj _ (conj _ (conj _ _)))); try first [assumption | lia].

Lemma set_pc_wf (s : CPU) (v : Z) :
  cpu_wf s -> 0 <= v < 65536 -> cpu_wf (set_pc s v).
Proof.
  intros (Hm & Ha & Hx & Hy & _) Hv. unfold set_pc. solve_wf.
Qed.

Lemma step_preserves_wf_aux (s s' : CPU) (b : bool) :
  cpu_wf s -> step s = Some (b, s') -> cpu_wf s'.
Proof.
  intros Hwf. pose proof Hwf as (Hm & Ha & Hx & Hy & Hpc).
  unfold step, dispatch_instruction.
  destruct (OPCODE_MAP_get _) as [op |]; [| discriminate].
  destruct (INSTRUCTION_HANDLERS_get (code op)) as [h |]; [| discriminate].
  destruct (read_operand_address _ _ _) as [a |] eqn:Hr; [| discriminate].
  intros H. injection H as _ <-.
  assert (Hop : 0 <= u16_wrapping_add (pc s) 1 < 65536)
    by (unfold u16_wrapping_add; apply Z.mod_pos_bound; lia).
  destruct (read_operand_address_range_aux s _ a _ Hm Hop Hr) as [Hra _].
  assert (Hh : cpu_wf (run_handler h s a)).
  { destruct h; cbn [run_handler].
    - exact Hwf.
    - destruct (lda_effect s a) as (Ea & Ex & Ey & Epc & Em & _).
      unfold cpu_wf. rewrite Ea, Ex, Ey, Epc, Em.
      unfold read_mem, Mem_read. pose proof (Hm a). solve_wf.
    - apply set_pc_wf; assumption.
    - destruct (inx_effect s a) as (Ex & Ea & Ey & Epc & Em & _).
      unfold cpu_wf. rewrite Ea, Ex, Ey, Epc, Em.
      pose proof (Z.mod_pos_bound (reg_x s + 1) 256). solve_wf.
    - destruct (tax_effect s a) as (Ex & Ea & Ey & Epc & Em & _).
      unfold cpu_wf. rewrite Ea, Ex, Ey, Epc, Em. solve_wf. }
  destruct (pc s =? pc (run_handler h s a)); [| exact Hh].
  apply set_pc_wf; [exact Hh |].
  unfold u16_wrapping_add. apply Z.mod_pos_bound. lia.
Qed.

(** [step] keeps memory bytes, A, X and Y bytes and PC a 16-bit address. *)
Theorem step_preserves_wf (s s' : CPU) (b : bool) :
  cpu_wf s -> step s = Some (b, s') -> cpu_wf s'.
Proof. apply step_preserves_wf_aux. Qed.

Lemma step_loop_wf (n : nat) (s s' : CPU) :
  cpu_wf s -> exec_state (step_loop n s) = Some s' -> cpu_wf s'.
Proof.
  revert s. induction n as [| n IH]; intros s Hwf H; simpl in H.
  - injection H as <-. exact Hwf.
  - destruct (step s) as [[[|] s1] |] eqn:E; try discriminate.
    + apply (IH s1); [exact (step_preserves_wf_aux _ _ _ Hwf E) | exact H].
    + injection H as <-. exact (step_preserves_wf_aux _ _ _ Hwf E).
Qed.

(** [interpret] of a byte program from a well-formed state leaves a
    well-formed state, whether it halts, runs out of budget or fails to
    load. *)
Theorem interpret_preserves_wf (n : nat) (s s' : CPU) (program : list Z) :
  cpu_wf s -> Forall (fun b => 0 <= b < 256) program ->
  exec_state (interpret n s program) = Some s' -> cpu_wf s'.
Proof.
  intros Hwf Hp. pose proof Hwf as (Hm & Ha & Hx & Hy & Hpc).
  unfold interpret, load.
  destruct (Mem_write_range (mem s) MEM_PRG_ROM_ADDR_START program)
    as [m1 r1] eqn:Ew.
  pose proof (Mem_write_range_bytes _ _ _ _ _ Hm Hp Ew) as Hm1.
  destruct r1.
  - destruct (Mem_write16 m1 INIT_PROGRAM_COUNTER_ADDR MEM_PRG_ROM_ADDR_START)
      as [m2 r2] eqn:E16.
    pose proof (Mem_write16_bytes _ _ _ _ _ Hm1 E16) as Hm2.
    destruct r2.
    + unfold reset, read_mem16. cbn [mem].
      destruct (Mem_read16 m2 INIT_PROGRAM_COUNTER_ADDR) as [v |] eqn:Er;
        [| discriminate].
      unfold run. apply step_loop_wf.
      unfold set_pc, MEM_PRG_ROM_ADDR_START. solve_wf.
    + intros H. injection H as <-. unfold set_mem. solve_wf.
  - intros H. injection H as <-. unfold set_mem. solve_wf.
Qed.

Lemma cpu_new_wf : cpu_wf CPU_new.
Proof. unfold CPU_new, Mem_new. solve_wf. intros a. lia. Qed.

Lemma step_preserves_wf_witness :
  cpu_wf cpu_inx /\
  exists b s', step cpu_inx = Some (b, s') /\ cpu_wf s'.
Proof.
  assert (Hw : cpu_wf cpu_inx).
  { unfold cpu_inx. solve_wf. apply mem_of_bytes. repeat constructor; simpl; lia. }
  split; [exact Hw |].
  destruct (step cpu_inx) as [[b s'] |] eqn:E; [| discriminate].
  exists b, s'. split; [reflexivity |].
  exact (step_preserves_wf cpu_inx s' b Hw E).
Defined.

Lemma interpret_preserves_wf_witness :
  (cpu_wf CPU_new /\ Forall (fun b => 0 <= b < 256) [0xa9; 0x8f; 0xaa; 0x00]) /\
  exists s', exec_state (interpret 10 CPU_new [0xa9; 0x8f; 0xaa; 0x00]) = Some s' /\
    cpu_wf s'.
Proof.
  assert (Hp : Forall (fun b => 0 <= b < 256) [0xa9; 0x8f; 0xaa; 0x00])
    by (repeat constructor; lia).
  split; [split; [exact cpu_new_wf | exact Hp] |].
  destruct (exec_state (interpret 10 CPU_new [0xa9; 0x8f; 0xaa; 0x00]))
    as [s' |] eqn:E; [| discriminate].
  exists s'. split; [reflexivity |].
  exact (interpret_preserves_wf 10 CPU_new s' _ cpu_new_wf Hp E).
Defined.

(** ** Running a program of INX instructions *)

(** n INX instructions followed by BRK. *)
Definition inx_program (n : nat) : list Z := repeat OPCODE_INX n ++ [OPCODE_BRK].

(** The status flags after k INX instructions from a cleared status. *)
Definition inx_flags (k : nat) (i : Z) : bool :=
  if (k =? 0)%nat then false
  else if i =? 1 then (Z.of_nat k mod 256 =? 0)
  else if i =? 7 then Z.testbit (Z.of_nat k mod 256) 7
  else false.

Section InxRun.
Variable n : nat.
Hypothesis Hn : Z.of_nat n < 0x7ffc.
Variable M : Mem.
Hypothesis HM : forall k, (k <= n)%nat ->
  M (0x8000 + Z.of_nat k) = nth k (inx_program n) 0.

Definition inx_inv (k : nat) (s : CPU) : Prop :=
  mem s = M /\ pc s = 0x8000 + Z.of_nat k /\ reg_x s = Z.of_nat k mod 256 /\
  reg_a s = 0 /\ reg_y s = 0 /\
  forall i, 0 <= i < 8 -> Z.testbit (reg_status s) i = inx_flags k i.

Lemma inx_inv_step (k : nat) (s : CPU) :
  (k < n)%nat -> inx_inv k s ->
  exists s', step s = Some (true, s') /\ inx_inv (S k) s'.
Proof.
  intros Hk (Hm & Hpc & Hx & Ha & Hy & Hb).
  assert (Hop : read_mem s (pc s) = OPCODE_INX).
  { unfold read_mem, Mem_read. rewrite Hm, Hpc, HM by lia.
    unfold inx_program. rewrite app_nth1 by (rewrite repeat_length; lia).
    apply nth_repeat_lt. exact Hk. }
  destruct (inx_step_aux s Hop) as (s' & Hs & Hx' & Ha' & Hy' & Hm' & Hpc' & Hb').
  exists s'. split; [exact Hs |].
  assert (Hxs : (reg_x s + 1) mod 256 = Z.of_nat (S k) mod 256).
  { rewrite Hx, Nat2Z.inj_succ, Z.add_mod_idemp_l by lia. reflexivity. }
  unfold inx_inv. rewrite Hm', Ha', Hy', Hx', Hxs, Hpc'.
  split; [exact Hm |]. split.
  { rewrite Hpc, Nat2Z.inj_succ, Z.mod_small by lia. lia. }
  split; [reflexivity |]. split; [exact Ha |]. split; [exact Hy |].
  intros i Hi. rewrite Hb' by exact Hi. rewrite Hxs.
  unfold inx_flags. simpl (S k =? 0)%nat.
  destruct (Z.eqb_spec i 1); [reflexivity |].
  destruct (Z.eqb_spec i 7); [reflexivity |].
  rewrite Hb by exact Hi. unfold inx_flags.
  destruct (k =? 0)%nat; [reflexivity |].
  destruct (Z.eqb_spec i 1); [contradiction |].
  destruct (Z.eqb_spec i 7); [contradiction | reflexivity].
Qed.

Lemma inx_inv_halt (s : CPU) : inx_inv n s -> step s = Some (false, s).
Proof.
  intros (Hm & Hpc & _).
  apply brk_step_aux; [| lia].
  unfold read_mem, Mem_read. rewrite Hm, Hpc, HM by lia.
  unfold inx_program. rewrite app_nth2 by (rewrite repeat_length; lia).
  rewrite repeat_length, Nat.sub_diag. reflexivity.
Qed.

Lemma inx_inv_loop (j k : nat) (s : CPU) (fuel : nat) :
  (k + j = n)%nat -> (j < fuel)%nat -> inx_inv k s ->
  exists s', step_loop fuel s = Returned s' Ok /\ inx_inv n s'.
Proof.
  revert k s fuel. induction j as [| j IH]; intros k s fuel Hkj Hf Hi;
    destruct fuel as [| fuel]; try lia.
  - rewrite Nat.add_0_r in Hkj. subst k.
    exists s. simpl. rewrite (inx_inv_halt s Hi). split; [reflexivity | exact Hi].
  - destruct (inx_inv_step k s ltac:(lia) Hi) as (s1 & Hs & Hi1).
    simpl. rewrite Hs. apply (IH (S k)); [lia | lia | exact Hi1].
Qed.
End InxRun.

(** [interpret] on a program of n INX instructions followed by BRK, from any
    CPU, returns [Ok] with X = n mod 256, A = Y = 0, PC on the BRK byte and the
    status holding just the zero and negative flags of the last INX (all
    clear when n = 0), provided the program fits below the reset vector and
    the fuel covers the n + 1 steps. *)
Theorem interpret_inx_program (fuel n : nat) (s : CPU) :
  Z.of_nat n < 0x7ffc -> (n < fuel)%nat ->
  exists s', interpret fuel s (inx_program n) = Returned s' Ok /\
    reg_x s' = Z.of_nat n mod 256 /\ reg_a s' = 0 /\ reg_y s' = 0 /\
    pc s' = 0x8000 + Z.of_nat n /\
    forall i, 0 <= i < 8 -> Z.testbit (reg_status s') i = inx_flags n i.
Proof.
  intros Hn Hf.
  assert (Hlen : List.length (inx_program n) = S n).
  { unfold inx_program. rewrite length_app, repeat_length. simpl. lia. }
  destruct (load_places_program_aux s (inx_program n)) as (s1 & Hl & Hin & _);
    [rewrite Hlen; lia |].
  destruct (reset_spec_aux s1) as (s2 & Hr & Ha & Hx & Hy & Hst & Hm & _).
  assert (Hi0 : inx_inv (mem s1) 0 (set_pc s2 MEM_PRG_ROM_ADDR_START)).
  { unfold inx_inv, set_pc. cbn [mem pc reg_x reg_a reg_y reg_status].
    rewrite Ha, Hx, Hy, Hst, Hm. repeat split.
    intros i Hi. unfold Status_empty. rewrite Z.testbit_0_l. reflexivity. }
  destruct (inx_inv_loop n Hn (mem s1)
              ltac:(intros k Hk; unfold read_mem in Hin;
                    rewrite <- (Nat2Z.id k) at 2; apply Hin; rewrite ?Hlen; lia)
              n 0 _ fuel ltac:(lia) Hf Hi0) as (s' & Hs' & _ & Hpc & Hx' & Ha' & Hy' & Hb').
  exists s'. unfold interpret. rewrite Hl, Hr. unfold run. rewrite Hs'.
  repeat split; assumption.
Qed.

Lemma interpret_inx_program_witness :
  Z.of_nat 300 < 0x7ffc /\ (300 < 301)%nat /\
  exists s', interpret 301 CPU_new (inx_program 300) = Returned s' Ok /\
    reg_x s' = Z.of_nat 300 mod 256 /\ reg_a s' = 0 /\ reg_y s' = 0 /\
    pc s' = 0x8000 + Z.of_nat 300 /\
    forall i, 0 <= i < 8 -> Z.testbit (reg_status s') i = inx_flags 300 i.
Proof.
  split; [lia | split; [lia |]].
  apply interpret_inx_program; lia.
Defined.
